(** * dex-server: the sponsored swap / transfer build-sign-submit pipeline

    A shallow embedding of [SwapService], [TransferService] and [Service]
    (the coordinator) together with the properties of the registry, the
    rebuild loop, the fee placement, the slippage guards, the instruction
    order and the per-user swap streams.

    The services are stateful TypeScript classes whose methods are [async]
    and throw.  Their state (the transaction registry and the per-user
    subscription map) is threaded explicitly, a thrown exception is a
    result value that keeps the state reached so far, and every external
    collaborator (chain RPC, quote provider, authentication, live
    configuration, clock) is a field of a [World] record. *)

From Stdlib Require Import ZArith String Ascii List Lia.
From stdpp Require Import gmap strings pretty.

Open Scope Z_scope.

(** ** Data model (the shared type declarations) *)

Definition PublicKey := string.

Inductive TransactionType :=
| BUY            (* = 1, buying any token with USDC *)
| SELL_PARTIAL   (* = 2, selling part of a token balance for USDC *)
| SELL_ALL       (* = 3, selling the entire token balance for USDC *)
| TRANSFER.      (* = 4, transferring tokens to another user *)

#[global] Instance TransactionType_eq_dec : EqDecision TransactionType.
Proof. solve_decision. Defined.

(** The fields of [Config] that the modelled code reads.  The fee fields
    ([BUY_FEE_BPS], [SELL_FEE_BPS], [MIN_TRADE_SIZE]) are read only by the
    fee service. *)
Record Config := {
  USER_SLIPPAGE_BPS_MAX : Z;
  MIN_SLIPPAGE_BPS : Z;
  AUTO_SLIPPAGE : bool;
  MAX_DEFAULT_SLIPPAGE_BPS : Z;
  MAX_AUTO_SLIPPAGE_BPS : Z;
  AUTO_SLIPPAGE_COLLISION_USD_VALUE : Z;
  MAX_ACCOUNTS : Z;
  MAX_BUILD_ATTEMPTS : Z;
  BUY_FEE_BPS : Z;
  SELL_FEE_BPS : Z;
  MIN_TRADE_SIZE : Z
}.

(** [UserPrebuildSwapRequest]: [slippageBps?: number] is [None] when the
    property is [undefined]. *)
Record UserPrebuildSwapRequest := {
  u_buyTokenId : string;
  u_sellTokenId : string;
  u_sellQuantity : Z;
  u_slippageBps : option Z
}.

(** [ActiveSwapRequest = UserPrebuildSwapRequest & { accounts, user key }].
    The sell token account is an [option] because [buildSwapResponse] tests
    it for presence. *)
Record ActiveSwapRequest := {
  buyTokenId : string;
  sellTokenId : string;
  sellQuantity : Z;
  slippageBps : option Z;
  buyTokenAccount : PublicKey;
  sellTokenAccount : option PublicKey;
  userPublicKey : PublicKey
}.

(** Instructions, by the constructor that made them. *)
Inductive TransactionInstruction :=
| RouteIx (program : string) (data : Z)
| FeeTransferIx (fromAccount owner : PublicKey) (amount : Z)
| TokenCloseIx (owner account mint : PublicKey)
| CreateATAIx (payer ata owner mint : PublicKey)
| TokenTransferIx (fromAccount toAccount owner : PublicKey) (amount : Z)
| SystemTransferIx (fromPubkey toPubkey : PublicKey) (lamports : Z)
| ComputeUnitLimitIx (units : Z)
| ComputeUnitPriceIx (microLamports : Z).

Record MessageV0 := {
  payerKey : PublicKey;
  recentBlockhash : string;
  instructions : list TransactionInstruction
}.

Record TransactionRegistryData := {
  d_timestamp : Z;
  d_transactionType : TransactionType;
  d_autoSlippage : bool;
  d_contextSlot : Z;
  d_buildAttempts : Z;
  d_activeSwapRequest : option ActiveSwapRequest;
  d_cfg : option Config
}.

Record TransactionRegistryEntry := {
  message : MessageV0;
  lastValidBlockHeight : Z;
  timestamp : Z;
  transactionType : TransactionType;
  autoSlippage : bool;
  contextSlot : Z;
  buildAttempts : Z;
  activeSwapRequest : option ActiveSwapRequest;
  cfg : option Config
}.

(** [entry.cfg], the configuration stored with the entry. *)
Definition storedConfig (entry : TransactionRegistryEntry) : option Config := cfg entry.

(** [PrebuildSwapResponse]: the spread request plus three fields. *)
Record PrebuildSwapResponse := {
  transactionMessageBase64 : string;
  r_request : ActiveSwapRequest;
  hasFee : bool;
  r_timestamp : Z
}.

Record PrebuildSignedSwapResponse := {
  s_response : PrebuildSwapResponse;
  feePayerSignature : string
}.

Inductive ResponseType := success | fail | rebuild.

Record SubmitSignedTransactionResponse := {
  responseType : ResponseType;
  txid : option string;
  rebuilt : option PrebuildSwapResponse;
  error : option string
}.

Record QuoteGetRequest := {
  inputMint : string;
  outputMint : string;
  amount : Z;
  q_slippageBps : option Z;
  q_autoSlippage : bool;
  maxAutoSlippageBps : Z;
  autoSlippageCollisionUsdValue : Z;
  onlyDirectRoutes : bool;
  restrictIntermediateTokens : bool;
  maxAccounts : Z;
  asLegacyTransaction : bool
}.

Record Quote := {
  outAmount : Z;
  q_contextSlot : option Z
}.

(** What [jupiter.getSwapInstructions] resolves to; [swapInstructions] may be
    missing, which the caller tests with [!swapInstructions?.length]. *)
Record SwapInstructions := {
  swapInstructions : option (list TransactionInstruction);
  addressLookupTableAccounts : list string;
  quote : Quote
}.

(** [SwapSubscription]: the rxjs [Subject] and [Subscription] objects are
    identified by the handle they were allocated with. *)
Record SwapSubscription := {
  subject : nat;
  subscription : nat;
  request : ActiveSwapRequest
}.

Record UserContext := {
  userId : string;
  walletPublicKey : PublicKey
}.

Record TransferRequest := {
  fromAddress : string;
  toAddress : string;
  t_amount : Z;
  tokenId : string
}.

(** ** Exceptions and the state-and-exception monad *)

(** Thrown values.  [ErrorJSON c] is [new Error(JSON.stringify(c))] and
    [ErrorBuild c] is [new Error("Failed to build swap response: " + c)]. *)
Inductive exn :=
| Error (msg : string)
| ErrorSlippageMin (bound : Z)   (* "Slippage bps must be greater than " + bound *)
| ErrorJSON (cause : exn)
| ErrorBuild (cause : exn).

Inductive result (A : Type) :=
| Ok (a : A)
| Throw (e : exn).
Arguments Ok {A} a.
Arguments Throw {A} e.

(** What a call of an asynchronous method does when its result is returned
    without [await] from inside a [try] block: the call throws, and the
    [catch] block runs; or it returns a promise that resolves; or it returns
    a promise that rejects, and the rejection is the caller's own, past the
    [catch] block. *)
Inductive CallOutcome (A : Type) :=
| Resolves (a : A)
| Throws (e : exn)
| Rejects (e : exn).
Arguments Resolves {A} a.
Arguments Throws {A} e.
Arguments Rejects {A} e.

(** Calls to collaborators, in program order.  The length of the trace is
    the logical time at which a collaborator is asked. *)
Inductive Event :=
| EvBuild (buildAttempt : Z)          (* swapService.buildSwapResponse entered *)
| EvQuote (req : QuoteGetRequest)     (* jupiter.getSwapInstructions called *)
| EvRegister (key : string)           (* an entry stored in the registry *)
| EvSubmit (msg : MessageV0)          (* transactionService.signAndSendTransaction called *)
| EvConfig.                           (* config() read *)

Record State := {
  registry : gmap string TransactionRegistryEntry;
  swapSubscriptions : gmap string SwapSubscription;
  nextHandle : nat;
  trace : list Event
}.

Definition M (A : Type) : Type := State -> result A * State.

#[global] Instance M_ret : MRet M := fun A a st => (Ok a, st).

#[global] Instance M_bind : MBind M := fun A B f m st =>
  match m st with
  | (Ok a, st') => f a st'
  | (Throw e, st') => (Throw e, st')
  end.

Definition throw {A} (e : exn) : M A := fun st => (Throw e, st).

(** [try { body } catch (error) { handler(error) }] *)
Definition try_catch {A} (body : M A) (handler : exn -> M A) : M A := fun st =>
  match body st with
  | (Ok a, st') => (Ok a, st')
  | (Throw e, st') => handler e st'
  end.

(** Lifts the outcome of a collaborator call. *)
Definition lift {A} (r : result A) : M A := fun st => (r, st).

Definition now : M nat := fun st => (Ok (length (trace st)), st).

Definition emit (e : Event) : M unit := fun st =>
  (Ok tt, {| registry := registry st;
             swapSubscriptions := swapSubscriptions st;
             nextHandle := nextHandle st;
             trace := trace st ++ [e] |}).

Definition set_registry (f : gmap string TransactionRegistryEntry -> gmap string TransactionRegistryEntry) (st : State) : State :=
  {| registry := f (registry st);
     swapSubscriptions := swapSubscriptions st;
     nextHandle := nextHandle st;
     trace := trace st |}.

Definition set_subscriptions (f : gmap string SwapSubscription -> gmap string SwapSubscription) (st : State) : State :=
  {| registry := registry st;
     swapSubscriptions := f (swapSubscriptions st);
     nextHandle := nextHandle st;
     trace := trace st |}.

(** JavaScript truthiness of an optional number: [undefined] and [0] are
    falsy. *)
Definition truthy (n : option Z) : bool :=
  match n with
  | Some v => negb (v =? 0)
  | None => false
  end.

(** ** The collaborators *)

Record World := {
  (* authService.getUserContext(jwtToken) *)
  getUserContext : string -> result UserContext;
  (* deriveTokenAccounts(wallet, buyTokenId, sellTokenId) *)
  deriveTokenAccounts : PublicKey -> string -> string -> PublicKey * option PublicKey;
  (* config(): the live configuration at a logical time *)
  config : nat -> Config;
  (* Date.now() *)
  Date_now : nat -> Z;
  (* transactionService.determineTransactionType(request) *)
  determineTransactionType : nat -> ActiveSwapRequest -> result TransactionType;
  (* jupiter.getSwapInstructions(request, userPublicKey) *)
  getSwapInstructions : nat -> QuoteGetRequest -> PublicKey -> result SwapInstructions;
  (* rent-payer rewriting of one instruction *)
  reassignRent : TransactionInstruction -> TransactionInstruction;
  (* compute-budget estimate (limit, price) for a list of instructions *)
  estimateComputeBudget : nat -> list TransactionInstruction -> Z -> Config -> result (Z * Z);
  (* connection.getLatestBlockhash(): blockhash and lastValidBlockHeight *)
  getLatestBlockhash : nat -> result (string * Z);
  (* Buffer.from(message.serialize()).toString("base64") *)
  serialize : MessageV0 -> string;
  (* the fee payer's public key *)
  feePayer : PublicKey;
  (* transactionService.signTransaction(transaction) *)
  signTransaction : MessageV0 -> result string;
  (* transactionService.signAndSendTransaction(user, signature, entry, cfg):
     what the call does and what it leaves of the registry it owns *)
  submit : nat -> PublicKey -> string -> TransactionRegistryEntry -> Config ->
           gmap string TransactionRegistryEntry ->
           CallOutcome SubmitSignedTransactionResponse * gmap string TransactionRegistryEntry;
  (* constants and chain reads of the transfer service *)
  USDC_MAINNET_PUBLIC_KEY : string;
  TOKEN_ACCOUNT_SIZE : Z;
  getAssociatedTokenAddressSync : string -> PublicKey -> PublicKey;
  getBalance : nat -> PublicKey -> result Z;
  getTokenAccountBalance : nat -> PublicKey -> result Z;
  getMinimumBalanceForRentExemption : nat -> Z -> result Z;
  calculateRentExemptionFeeAmount : nat -> Z -> result Z;
  getSlot : nat -> result Z
}.

(** ** FeeService (its source is not part of the modelled files) *)

Module FeeService.

(** Modelled from the spec: the fee tier of [FeeService.calculateFeeAmount],
    "the fee-bps tier for BUY vs SELL". *)
Definition feeBps (type : TransactionType) (cfg : Config) : Z :=
  match type with
  | BUY => BUY_FEE_BPS cfg
  | _ => SELL_FEE_BPS cfg
  end.

(** Modelled from the spec: [FeeService.calculateFeeAmount] "applies the
    fee-bps tier for BUY vs SELL, enforces minTradeSize (reject quantities
    below threshold)"; a fee of 100 bps on 1_000_000 is 10_000. *)
Definition calculateFeeAmount (quantity : Z) (type : TransactionType) (cfg : Config) : result Z :=
  if quantity <? MIN_TRADE_SIZE cfg
  then Throw (Error "Trade size is below the minimum trade size")
  else Ok (quantity * feeBps type cfg / 10000).

(** Modelled from the spec: [FeeService.createFeeTransferInstruction]
    "builds one instruction moving amount to the configured fee recipient
    account; fails if amount is negative". *)
Definition createFeeTransferInstruction (fromAccount owner : PublicKey) (amount : Z)
  : result (option TransactionInstruction) :=
  if amount <? 0
  then Throw (Error "Fee amount must not be negative")
  else Ok (Some (FeeTransferIx fromAccount owner amount)).

End FeeService.

(** ** TransactionService (its source is not part of the modelled files) *)

Module TransactionService.
Section WithWorld.
Variable W : World.

(** Modelled from the spec: [TransactionService.getRegisteredTransaction],
    the registry's [get(key)]; the callers delete separately. *)
Definition getRegisteredTransaction (base64Message : string) : M (option TransactionRegistryEntry) :=
  fun st => (Ok (registry st !! base64Message), st).

(** Modelled from the spec: [TransactionService.deleteFromRegistry], the
    registry's [delete(key)]. *)
Definition deleteFromRegistry (base64Message : string) : M unit :=
  fun st => (Ok tt, set_registry (delete base64Message) st).

(** Modelled from the spec: [TransactionService.registerTransaction],
    "register(message, lastValidBlockHeight, type, autoSlippage,
    contextSlot, buildAttempt, snapshot?) -> key", the key being the
    encoding of the compiled message. *)
Definition registerTransaction (msg : MessageV0) (lvbh : Z) (type : TransactionType)
    (auto : bool) (slot : Z) (attempts : Z)
    (req : option ActiveSwapRequest) (snapshot : option Config) : M string :=
  t ← now;
  let key := serialize W msg in
  let entry := {| message := msg; lastValidBlockHeight := lvbh;
                  timestamp := Date_now W t; transactionType := type;
                  autoSlippage := auto; contextSlot := slot;
                  buildAttempts := attempts; activeSwapRequest := req;
                  cfg := snapshot |} in
  (fun st => (Ok tt, set_registry (insert key entry) st)) ;;
  emit (EvRegister key) ;;
  mret key.

(** Modelled from the spec: [TransactionService.buildAndRegisterTransactionMessage],
    "compile the message, register it": the message is compiled for the
    fee payer on the latest blockhash and registered with the caller's
    registry data. *)
Definition buildAndRegisterTransactionMessage (ixs : list TransactionInstruction)
    (alts : list string) (data : TransactionRegistryData) : M string :=
  t ← now;
  bh ← lift (getLatestBlockhash W t);
  let msg := {| payerKey := feePayer W; recentBlockhash := bh.1; instructions := ixs |} in
  let key := serialize W msg in
  let entry := {| message := msg; lastValidBlockHeight := bh.2;
                  timestamp := d_timestamp data;
                  transactionType := d_transactionType data;
                  autoSlippage := d_autoSlippage data;
                  contextSlot := d_contextSlot data;
                  buildAttempts := d_buildAttempts data;
                  activeSwapRequest := d_activeSwapRequest data;
                  cfg := d_cfg data |} in
  (fun st => (Ok tt, set_registry (insert key entry) st)) ;;
  emit (EvRegister key) ;;
  mret key.

(** Modelled from the spec: [TransactionService.createTokenCloseInstruction],
    the token-account-close instruction "emitted only for SELL_ALL, to
    reclaim rent" (the caller notes that the conditional is inside). *)
Definition createTokenCloseInstruction (owner account mint : PublicKey) (quantity : Z)
    (type : TransactionType) : M (option TransactionInstruction) :=
  mret (if decide (type = SELL_ALL) then Some (TokenCloseIx owner account mint) else None).

(** Modelled from the spec: [TransactionService.reassignRentInstructions],
    "reassign temporary-account rent payment to the service fee payer",
    instruction by instruction. *)
Definition reassignRentInstructions (ixs : list TransactionInstruction) : list TransactionInstruction :=
  map (reassignRent W) ixs.

(** Modelled from the spec: [TransactionService.optimizeComputeInstructions],
    "estimate and prepend compute-budget (limit, price) instructions". *)
Definition optimizeComputeInstructions (ixs : list TransactionInstruction)
    (alts : list string) (slot : Z) (cfg : Config) : M (list TransactionInstruction) :=
  t ← now;
  budget ← lift (estimateComputeBudget W t ixs slot cfg);
  mret (ComputeUnitLimitIx budget.1 :: ComputeUnitPriceIx budget.2 :: ixs).

End WithWorld.
End TransactionService.

(** ** SwapService *)

Module SwapService.
Section WithWorld.
Variable W : World.

(** The three forms of slippage settings, by priority. *)
Definition slippageSettings_slippageBps (request : ActiveSwapRequest) (cfg : Config) : option Z :=
  if truthy (slippageBps request) then slippageBps request
  else if AUTO_SLIPPAGE cfg then None
  else Some (MAX_DEFAULT_SLIPPAGE_BPS cfg).

Definition slippageSettings_autoSlippage (request : ActiveSwapRequest) (cfg : Config) : bool :=
  if truthy (slippageBps request) then false else AUTO_SLIPPAGE cfg.

(** [request.slippageBps && request.slippageBps > bound] *)
Definition slippageAbove (request : ActiveSwapRequest) (bound : Z) : bool :=
  truthy (slippageBps request) &&
  match slippageBps request with Some s => s >? bound | None => false end.

(** [request.slippageBps && request.slippageBps < bound] *)
Definition slippageBelow (request : ActiveSwapRequest) (bound : Z) : bool :=
  truthy (slippageBps request) &&
  match slippageBps request with Some s => s <? bound | None => false end.

(** The two slippage guards at the head of [buildSwapResponse]. *)
Definition slippageGuards (request : ActiveSwapRequest) (cfg : Config) : M unit :=
  (if slippageAbove request (USER_SLIPPAGE_BPS_MAX cfg)
   then throw (Error "Slippage bps is too high") else mret tt) ;;
  (if slippageBelow request (MIN_SLIPPAGE_BPS cfg)
   then throw (ErrorSlippageMin (MIN_SLIPPAGE_BPS cfg)) else mret tt).

Definition organizeInstructions (swapIxs : list TransactionInstruction)
    (feeTransferInstruction tokenCloseInstruction : option TransactionInstruction)
  : list TransactionInstruction :=
  let instructions := swapIxs in
  let instructions :=
    match feeTransferInstruction with
    | Some i => instructions ++ [i]
    | None => instructions
    end in
  let instructions :=
    match tokenCloseInstruction with
    | Some i => instructions ++ [i]
    | None => instructions
    end in
  instructions.

Definition swapInstructionRequest (request : ActiveSwapRequest) (cfg : Config) (swapAmount : Z)
  : QuoteGetRequest :=
  {| inputMint := sellTokenId request;
     outputMint := buyTokenId request;
     amount := swapAmount;
     q_slippageBps := slippageSettings_slippageBps request cfg;
     q_autoSlippage := slippageSettings_autoSlippage request cfg;
     maxAutoSlippageBps := MAX_AUTO_SLIPPAGE_BPS cfg;
     autoSlippageCollisionUsdValue := AUTO_SLIPPAGE_COLLISION_USD_VALUE cfg;
     onlyDirectRoutes := false;
     restrictIntermediateTokens := true;
     maxAccounts := MAX_ACCOUNTS cfg;
     asLegacyTransaction := false |}.

(** The fee-transfer step: BUY charges the fee computed up front on the
    sell token account, SELL computes it from the quote's output amount
    and charges the buy token account. *)
Definition feeTransferStep (request : ActiveSwapRequest) (cfg : Config)
    (type : TransactionType) (sellAccount : PublicKey) (buyFeeAmount : Z) (q : Quote)
  : M (option TransactionInstruction) :=
  match type with
  | BUY =>
      lift (FeeService.createFeeTransferInstruction sellAccount (userPublicKey request) buyFeeAmount)
  | SELL_ALL | SELL_PARTIAL =>
      sellFeeAmount ← lift (FeeService.calculateFeeAmount (outAmount q) type cfg);
      lift (FeeService.createFeeTransferInstruction (buyTokenAccount request) (userPublicKey request) sellFeeAmount)
  | TRANSFER => throw (Error "Invalid swap type")
  end.

Definition buildSwapResponse (request : ActiveSwapRequest) (cfg : Config) (buildAttempt : Z)
  : M PrebuildSwapResponse :=
  emit (EvBuild buildAttempt) ;;
  sellAccount ← match sellTokenAccount request with
                | Some a => mret a
                | None => throw (Error "Sell token account is required but was not provided")
                end;
  slippageGuards request cfg ;;
  (* Determine swap type *)
  t ← now;
  type ← lift (determineTransactionType W t request);
  (* Calculate fee if swap type is buy *)
  buyFeeAmount ← (if decide (BUY = type)
                  then lift (FeeService.calculateFeeAmount (sellQuantity request) type cfg)
                  else mret 0);
  let swapAmount := sellQuantity request - buyFeeAmount in
  tokenCloseInstruction ←
    TransactionService.createTokenCloseInstruction (userPublicKey request) sellAccount
      (sellTokenId request) (sellQuantity request) type;
  (* Get swap instructions from Jupiter *)
  let req := swapInstructionRequest request cfg swapAmount in
  t ← now;
  emit (EvQuote req) ;;
  si ← lift (getSwapInstructions W t req (userPublicKey request));
  swapIxs ← match swapInstructions si with
            | Some (i :: l) => mret (i :: l)
            | _ => throw (Error "No swap instruction received")
            end;
  (* Create fee transfer instruction *)
  feeTransferInstruction ← feeTransferStep request cfg type sellAccount buyFeeAmount (quote si);
  let organizedInstructions := organizeInstructions swapIxs feeTransferInstruction tokenCloseInstruction in
  let rentReassignedInstructions := TransactionService.reassignRentInstructions W organizedInstructions in
  let slot := default 0 (q_contextSlot (quote si)) in
  optimizedInstructions ←
    TransactionService.optimizeComputeInstructions W rentReassignedInstructions
      (addressLookupTableAccounts si) slot cfg;
  t ← now;
  let txRegistryData :=
    {| d_timestamp := Date_now W t;
       d_transactionType := type;
       d_autoSlippage := slippageSettings_autoSlippage request cfg;
       d_contextSlot := slot;
       d_buildAttempts := buildAttempt;
       d_activeSwapRequest := Some request;
       d_cfg := Some cfg |} in
  base64Message ←
    TransactionService.buildAndRegisterTransactionMessage W optimizedInstructions
      (addressLookupTableAccounts si) txRegistryData;
  t ← now;
  mret {| transactionMessageBase64 := base64Message;
          r_request := request;
          hasFee := bool_decide (is_Some feeTransferInstruction);
          r_timestamp := Date_now W t |}.

Definition getMessageFromRegistry (base64 : string) : M (option TransactionRegistryEntry) :=
  TransactionService.getRegisteredTransaction base64.

Definition deleteMessageFromRegistry (base64 : string) : M unit :=
  TransactionService.deleteFromRegistry base64.

Definition hasActiveStream (userId : string) (st : State) : bool :=
  bool_decide (is_Some (swapSubscriptions st !! userId)).

Definition getActiveRequest (userId : string) (st : State) : option ActiveSwapRequest :=
  request <$> (swapSubscriptions st !! userId).

Definition updateActiveRequest (userId : string) (req : ActiveSwapRequest) : M unit := fun st =>
  match swapSubscriptions st !! userId with
  | None => (Throw (Error "No active swap stream found"), st)
  | Some sub =>
      (Ok tt, set_subscriptions
                (insert userId {| subject := subject sub;
                                  subscription := subscription sub;
                                  request := req |}) st)
  end.

(** [startSwapStream]: a new [Subject] and interval subscription are
    allocated only when the user has no subscription; the returned value is
    the subject stored for the user. *)
Definition startSwapStream (userId : string) (req : ActiveSwapRequest) : M (option nat) := fun st =>
  let st' :=
    if negb (hasActiveStream userId st)
    then
      let subj := nextHandle st in
      let subs := S (nextHandle st) in
      {| registry := registry st;
         swapSubscriptions :=
           <[userId := {| subject := subj; subscription := subs; request := req |}]>
             (swapSubscriptions st);
         nextHandle := S (S (nextHandle st));
         trace := trace st |}
    else st in
  (Ok (subject <$> (swapSubscriptions st' !! userId)), st').

(** One firing of the user's one-second interval: the response built from
    the request currently stored for the user, with the live
    configuration, at build attempt 0; [None] when there is no stored
    request. *)
Definition streamTick (userId : string) : M (option PrebuildSwapResponse) := fun st =>
  match getActiveRequest userId st with
  | None => (Ok None, st)
  | Some currentRequest =>
      (t ← now;
       emit EvConfig ;;
       r ← buildSwapResponse currentRequest (config W t) 0;
       mret (Some r)) st
  end.

Definition stopSwapStream (userId : string) : M unit := fun st =>
  match swapSubscriptions st !! userId with
  | Some _ => (Ok tt, set_subscriptions (delete userId) st)
  | None => (Ok tt, st)
  end.

End WithWorld.
End SwapService.

(** ** TransferService *)

Module TransferService.
Section WithWorld.
Variable W : World.

(** [[...].filter(i => i !== undefined && i !== null)] *)
Definition nonNull (l : list (option TransactionInstruction)) : list TransactionInstruction :=
  omap id l.

(** The USDC branch of [getTransfer] up to the transfer instruction: the
    optional account creation with its fee, then the transfer and the two
    compute-budget instructions. *)
Definition usdcTransferInstructions (req : TransferRequest)
  : M (list (option TransactionInstruction)) :=
  let tokenMint := tokenId req in
  let fromPublicKey := fromAddress req in
  let toPublicKey := toAddress req in
  let fromTokenAccount := getAssociatedTokenAddressSync W tokenMint fromPublicKey in
  let toTokenAccount := getAssociatedTokenAddressSync W tokenMint toPublicKey in
  (* Check if destination ATA needs to be created *)
  t ← now;
  toTokenAccountSolBalance ← lift (getBalance W t toTokenAccount);
  fromTokenAccountUsdcBalance ← lift (getTokenAccountBalance W t fromTokenAccount);
  ata ← (if toTokenAccountSolBalance =? 0
         then
           let createATAInstruction :=
             CreateATAIx (feePayer W) toTokenAccount toPublicKey tokenMint in
           (* Calculate and verify rent exemption fee *)
           rentExemptionAmountLamports ←
             lift (getMinimumBalanceForRentExemption W t (TOKEN_ACCOUNT_SIZE W));
           rentExemptionFeeAmountUsdcBaseUnits ←
             lift (calculateRentExemptionFeeAmount W t rentExemptionAmountLamports);
           (if fromTokenAccountUsdcBalance <? rentExemptionFeeAmountUsdcBaseUnits
            then throw (Error "Insufficient USDC balance to cover Solana rent exemption fee")
            else mret tt) ;;
           createATAFeeInstruction ←
             lift (FeeService.createFeeTransferInstruction fromTokenAccount fromPublicKey
                     rentExemptionFeeAmountUsdcBaseUnits);
           mret (Some createATAInstruction, createATAFeeInstruction)
         else mret (None, None));
  let transferInstruction :=
    TokenTransferIx fromTokenAccount toTokenAccount fromPublicKey (t_amount req) in
  mret [Some (ComputeUnitLimitIx 40000); Some (ComputeUnitPriceIx 100000);
        ata.1; Some transferInstruction; ata.2].

Definition getTransfer (req : TransferRequest) : M string :=
  ixs ← (if String.eqb (tokenId req) "SOLANA"
         then mret [None; None; None;
                    Some (SystemTransferIx (fromAddress req) (toAddress req) (t_amount req));
                    None]
         else if String.eqb (tokenId req) (USDC_MAINNET_PUBLIC_KEY W)
         then usdcTransferInstructions req
         else throw (Error "Invalid transfer request"));
  t ← now;
  slot ← lift (getSlot W t);
  bh ← lift (getLatestBlockhash W t);
  (* Filter and organize instructions *)
  let allInstructions := nonNull ixs in
  (* Build and compile transaction message *)
  let msg := {| payerKey := feePayer W; recentBlockhash := bh.1;
                instructions := allInstructions |} in
  (* Register transaction *)
  TransactionService.registerTransaction W msg bh.2 TRANSFER false slot 1 None None.

End WithWorld.
End TransferService.

(** ** Service, the coordinator *)

Module Service.
Section WithWorld.
Variable W : World.

Definition activeRequestOf (walletPublicKey : PublicKey) (req : UserPrebuildSwapRequest)
  : ActiveSwapRequest :=
  let accounts := deriveTokenAccounts W walletPublicKey (u_buyTokenId req) (u_sellTokenId req) in
  {| buyTokenId := u_buyTokenId req;
     sellTokenId := u_sellTokenId req;
     sellQuantity := u_sellQuantity req;
     slippageBps := u_slippageBps req;
     buyTokenAccount := accounts.1;
     sellTokenAccount := accounts.2;
     userPublicKey := walletPublicKey |}.

(** [await config()] *)
Definition readConfig : M Config :=
  t ← now;
  emit EvConfig ;;
  mret (config W t).

(** The build attempts [lo, lo+1, ..., hi] of the loop
    [for (buildAttempt = lo; buildAttempt <= hi; buildAttempt++)]. *)
Definition attemptRange (lo hi : Z) : list Z := seqZ lo (hi + 1 - lo).

(** The body of the [for] loop of [buildSwapResponseWithRebuild], over the
    attempts still to make; the [throw] after the loop is the empty case. *)
Fixpoint rebuildLoop (activeRequest : ActiveSwapRequest) (cfg : Config) (attempts : list Z)
  : M PrebuildSwapResponse :=
  match attempts with
  | [] => throw (Error "Failed to build swap response")
  | buildAttempt :: rest =>
      try_catch
        (SwapService.buildSwapResponse W activeRequest cfg buildAttempt)
        (fun e =>
           (* if build attempt is maxed out or if user has set slippage, throw error *)
           if (buildAttempt >=? MAX_BUILD_ATTEMPTS cfg)
              || bool_decide (slippageBps activeRequest <> None)
           then throw (ErrorBuild e)
           else rebuildLoop activeRequest cfg rest)
  end.

Definition buildSwapResponseWithRebuild (activeRequest : ActiveSwapRequest) (cfg : Config)
    (priorBuildAttempts : Z) : M PrebuildSwapResponse :=
  rebuildLoop activeRequest cfg
    (attemptRange (priorBuildAttempts + 1) (MAX_BUILD_ATTEMPTS cfg)).

Definition fetchSwap (jwtToken : string) (req : UserPrebuildSwapRequest) : M PrebuildSwapResponse :=
  ctx ← lift (getUserContext W jwtToken);
  let activeRequest := activeRequestOf (walletPublicKey ctx) req in
  cfg ← readConfig;
  buildSwapResponseWithRebuild activeRequest cfg 0.

Definition fetchPresignedSwap (jwtToken : string) (req : UserPrebuildSwapRequest)
  : M PrebuildSignedSwapResponse :=
  fetchSwapResponse ← fetchSwap jwtToken req;
  registryEntry ← SwapService.getMessageFromRegistry (transactionMessageBase64 fetchSwapResponse);
  match registryEntry with
  | None => throw (Error "Transaction not found in registry")
  | Some entry =>
      let transaction := message entry in
      SwapService.deleteMessageFromRegistry (transactionMessageBase64 fetchSwapResponse) ;;
      signature ← lift (signTransaction W transaction);
      mret {| s_response := fetchSwapResponse; feePayerSignature := signature |}
  end.

Definition startSwapStream (jwtToken : string) (req : UserPrebuildSwapRequest) : M (option nat) :=
  ctx ← lift (getUserContext W jwtToken);
  SwapService.startSwapStream (userId ctx) (activeRequestOf (walletPublicKey ctx) req).

Definition stopSwapStream (jwtToken : string) : M unit :=
  ctx ← lift (getUserContext W jwtToken);
  SwapService.stopSwapStream (userId ctx).

(** The call [this.transactionService.signAndSendTransaction(...)], which
    is not awaited. *)
Definition callSubmitter (wallet : PublicKey) (userSignature : string)
    (entry : TransactionRegistryEntry) (cfg : Config)
  : M (CallOutcome SubmitSignedTransactionResponse) :=
  t ← now;
  emit (EvSubmit (message entry)) ;;
  ((fun st =>
      let out := submit W t wallet userSignature entry cfg (registry st) in
      (Ok out.1, set_registry (fun _ => out.2) st))
   : M (CallOutcome SubmitSignedTransactionResponse)).

(** The [catch] block of [signAndSendTransaction]. *)
Definition onSubmitError (base64TransactionMessage : string)
    (entry : TransactionRegistryEntry) (cfg : Config) (e : exn)
  : M SubmitSignedTransactionResponse :=
  (* don't rebuild transfer swaps *)
  if decide (transactionType entry = TRANSFER) then throw (ErrorJSON e)
  (* don't rebuild if slippage is not auto *)
  else if (buildAttempts entry + 1 >=? MAX_BUILD_ATTEMPTS cfg) || negb (autoSlippage entry)
  then throw (ErrorJSON e)
  else
    (* rebuild *)
    match activeSwapRequest entry with
    | None => throw (Error "ActiveSwapRequest is not set")
    | Some storedRequest =>
        match storedConfig entry with
        | None => throw (Error "Config is not set")
        | Some storedCfg =>
            SwapService.deleteMessageFromRegistry base64TransactionMessage ;;
            rebuiltSwapResponse ←
              buildSwapResponseWithRebuild storedRequest storedCfg (buildAttempts entry);
            mret {| responseType := rebuild; txid := None;
                    rebuilt := Some rebuiltSwapResponse; error := None |}
        end
    end.

(** [try { const response = submitter(...); return response; } catch ...]:
    the submitter's result is returned as it is, so the [catch] block runs
    for what the call itself throws, and a promise it returns settles the
    caller's own promise. *)
Definition signAndSendTransaction (jwtToken userSignature base64TransactionMessage : string)
  : M SubmitSignedTransactionResponse :=
  ctx ← lift (getUserContext W jwtToken);
  found ← TransactionService.getRegisteredTransaction base64TransactionMessage;
  match found with
  | None => throw (Error "Transaction not found in registry")
  | Some entry =>
      cfg ← readConfig;
      response ← callSubmitter (walletPublicKey ctx) userSignature entry cfg;
      match response with
      | Resolves r => mret r
      | Throws e => onSubmitError base64TransactionMessage entry cfg e
      | Rejects e => throw e
      end
  end.

Definition updateSwapRequest (jwtToken : string) (req : UserPrebuildSwapRequest)
  : M PrebuildSwapResponse :=
  ctx ← lift (getUserContext W jwtToken);
  active ← (fun st => (Ok (SwapService.hasActiveStream (userId ctx) st), st));
  (if negb active
   then throw (Error "No active swap stream found to update") else mret tt) ;;
  (* Get a new swap response with updated parameters *)
  response ← fetchSwap jwtToken req;
  (* Derive token accounts for the new request *)
  let updatedRequest := activeRequestOf (walletPublicKey ctx) req in
  SwapService.updateActiveRequest (userId ctx) updatedRequest ;;
  mret response.


End WithWorld.
End Service.

(** ** Observations on runs *)

(** The build attempts recorded in a trace, in order. *)
Definition builds (tr : list Event) : list Z :=
  omap (fun e => match e with EvBuild n => Some n | _ => None end) tr.

(** The quote requests recorded in a trace, in order. *)
Definition quotes (tr : list Event) : list QuoteGetRequest :=
  omap (fun e => match e with EvQuote q => Some q | _ => None end) tr.

(** The guards of the [catch] block of [Service.signAndSendTransaction] that
    rethrow the submission error, as one boolean. *)
Definition rethrows (entry : TransactionRegistryEntry) (liveCfg : Config) : bool :=
  bool_decide (transactionType entry = TRANSFER)
  || (buildAttempts entry + 1 >=? MAX_BUILD_ATTEMPTS liveCfg)
  || negb (autoSlippage entry).

(** The state in which the [catch] block of [Service.signAndSendTransaction]
    starts: the configuration was read, the submitter was called and left
    the registry [reg]. *)
Definition afterSubmit (st : State) (entry : TransactionRegistryEntry)
    (reg : gmap string TransactionRegistryEntry) : State :=
  {| registry := reg;
     swapSubscriptions := swapSubscriptions st;
     nextHandle := nextHandle st;
     trace := trace st ++ [EvConfig; EvSubmit (message entry)] |}.




(** ** A concrete world for the examples *)

Definition demoConfig (auto : bool) (maxBuildAttempts : Z) : Config :=
  {| USER_SLIPPAGE_BPS_MAX := 1000; MIN_SLIPPAGE_BPS := 10; AUTO_SLIPPAGE := auto;
     MAX_DEFAULT_SLIPPAGE_BPS := 50; MAX_AUTO_SLIPPAGE_BPS := 300;
     AUTO_SLIPPAGE_COLLISION_USD_VALUE := 1000; MAX_ACCOUNTS := 50;
     MAX_BUILD_ATTEMPTS := maxBuildAttempts;
     BUY_FEE_BPS := 100; SELL_FEE_BPS := 100; MIN_TRADE_SIZE := 15 |}.


(** Every token is authenticated as its own user, the chain always answers,
    the quote provider answers when [quoteOk] says so, every blockhash is
    fresh, and every call of the submitter throws and leaves the registry as
    it is. *)
Definition demoWorld (live : nat -> Config) (type : TransactionType)
    (quoteOk : nat -> bool) (senderUsdc : Z) : World :=
  {| getUserContext := fun jwt => Ok {| userId := jwt; walletPublicKey := "wallet" |};
     deriveTokenAccounts := fun _ _ _ => ("buyAccount", Some "sellAccount");
     config := live;
     Date_now := fun t => Z.of_nat t;
     determineTransactionType := fun _ _ => Ok type;
     getSwapInstructions := fun t _ _ =>
       if quoteOk t
       then Ok {| swapInstructions := Some [RouteIx "jupiter" 1; RouteIx "jupiter" 2];
                  addressLookupTableAccounts := [];
                  quote := {| outAmount := 500000; q_contextSlot := Some 7 |} |}
       else Throw (Error "no route");
     reassignRent := fun i => i;
     estimateComputeBudget := fun _ _ _ _ => Ok (200000, 1000);
     getLatestBlockhash := fun t => Ok (pretty t, 100);
     serialize := fun m => recentBlockhash m;
     feePayer := "feePayer";
     signTransaction := fun _ => Ok "signature";
     submit := fun _ _ _ _ _ reg => (Throws (Error "on-chain failure"), reg);
     USDC_MAINNET_PUBLIC_KEY := "USDC";
     TOKEN_ACCOUNT_SIZE := 165;
     getAssociatedTokenAddressSync := fun _ owner => String.append owner "-ata";
     getBalance := fun _ _ => Ok 0;
     getTokenAccountBalance := fun _ _ => Ok senderUsdc;
     getMinimumBalanceForRentExemption := fun _ _ => Ok 2039280;
     calculateRentExemptionFeeAmount := fun _ _ => Ok 300000;
     getSlot := fun _ => Ok 9 |}.

Definition emptyState : State :=
  {| registry := ∅; swapSubscriptions := ∅; nextHandle := 0; trace := [] |}.

Definition demoRequest (slippage : option Z) : UserPrebuildSwapRequest :=
  {| u_buyTokenId := "MEME"; u_sellTokenId := "USDC";
     u_sellQuantity := 1000000; u_slippageBps := slippage |}.

Definition demoActiveRequest (slippage : option Z) : ActiveSwapRequest :=
  {| buyTokenId := "MEME"; sellTokenId := "USDC"; sellQuantity := 1000000;
     slippageBps := slippage; buyTokenAccount := "buyAccount";
     sellTokenAccount := Some "sellAccount"; userPublicKey := "wallet" |}.


(** The same collaborators with a fee payer whose signing throws. *)
Definition withFailingSigner (W : World) : World :=
  {| getUserContext := getUserContext W;
     deriveTokenAccounts := deriveTokenAccounts W;
     config := config W;
     Date_now := Date_now W;
     determineTransactionType := determineTransactionType W;
     getSwapInstructions := getSwapInstructions W;
     reassignRent := reassignRent W;
     estimateComputeBudget := estimateComputeBudget W;
     getLatestBlockhash := getLatestBlockhash W;
     serialize := serialize W;
     feePayer := feePayer W;
     signTransaction := fun _ => Throw (Error "signing failed");
     submit := submit W;
     USDC_MAINNET_PUBLIC_KEY := USDC_MAINNET_PUBLIC_KEY W;
     TOKEN_ACCOUNT_SIZE := TOKEN_ACCOUNT_SIZE W;
     getAssociatedTokenAddressSync := getAssociatedTokenAddressSync W;
     getBalance := getBalance W;
     getTokenAccountBalance := getTokenAccountBalance W;
     getMinimumBalanceForRentExemption := getMinimumBalanceForRentExemption W;
     calculateRentExemptionFeeAmount := calculateRentExemptionFeeAmount W;
     getSlot := getSlot W |}.


(** ** Further methods of the coordinator and the server entry point *)

Module ServiceQueries.
Section WithWorld.
Variable W : World.



End WithWorld.

(** [getBearerToken] of the server entry point: [authorization] is
    [req.headers?.authorization], [None] when the header is missing. *)
Definition getBearerToken (authorization : option string) : option string :=
  match authorization with
  | Some authHeader =>
      if negb (String.eqb authHeader "") && String.prefix "Bearer " authHeader
      then Some (String.substring 7 (String.length authHeader - 7) authHeader)
      else None
  | None => None
  end.

(** [getBearerToken(opt.req) ?? ""], the token put into the request
    context. *)
Definition contextToken (authorization : option string) : string :=
  default ""%string (getBearerToken authorization).

End ServiceQueries.

(** * Properties *)

(** ** Running the monad *)

Lemma bind_run {A B} (m : M A) (f : A -> M B) (st : State) :
  (m ≫= f) st =
  match m st with
  | (Ok a, st') => f a st'
  | (Throw e, st') => (Throw e, st')
  end.
Proof. reflexivity. Qed.

Ltac unfold_ops :=
  unfold SwapService.slippageGuards, SwapService.feeTransferStep,
    SwapService.getMessageFromRegistry, SwapService.deleteMessageFromRegistry,
    TransactionService.createTokenCloseInstruction,
    TransactionService.optimizeComputeInstructions,
    TransactionService.buildAndRegisterTransactionMessage,
    TransactionService.registerTransaction,
    TransactionService.getRegisteredTransaction,
    TransactionService.deleteFromRegistry,
    Service.readConfig, Service.callSubmitter,
    mbind, M_bind, mret, M_ret, throw, try_catch, lift, now, emit in *.

(** Case analysis on the innermost scrutinee of a run in hypothesis [H]. *)
Ltac break_match_hyp H :=
  match type of H with
  | context [match ?x with _ => _ end] =>
      match x with
      | context [match _ with _ => _ end] => fail 1
      | _ => destruct x eqn:?
      end
  | context [if ?x then _ else _] => destruct x eqn:?
  end.

Ltac break_run H := repeat (break_match_hyp H; cbn in H; try discriminate).

Ltac norm_time := rewrite ?length_app in *; cbn in *; rewrite ?Nat.add_1_r in *.

Ltac rewrite_hyps :=
  cbn; repeat (match goal with Hx : ?x = _ |- context [?x] => rewrite Hx end; cbn).

(** ** One build *)

(** A build that throws leaves the registry and the subscriptions alone. *)
Lemma build_fail W request cfg n st e st' :
  SwapService.buildSwapResponse W request cfg n st = (Throw e, st') ->
  registry st' = registry st /\
  swapSubscriptions st' = swapSubscriptions st /\
  nextHandle st' = nextHandle st.
Proof.
  unfold SwapService.buildSwapResponse. unfold_ops. cbn. intros H.
  break_run H; inversion H; subst; clear H; cbn; auto.
Qed.

(** What a build that returns has done. *)
Lemma build_ok W request cfg n st r st' :
  SwapService.buildSwapResponse W request cfg n st = (Ok r, st') ->
  exists entry sellAcc type buyFee si routes feeIx budget bh,
    registry st' = <[transactionMessageBase64 r := entry]> (registry st) /\
    swapSubscriptions st' = swapSubscriptions st /\
    nextHandle st' = nextHandle st /\
    determineTransactionType W (S (length (trace st))) request = Ok type /\
    buildAttempts entry = n /\
    storedConfig entry = Some cfg /\
    activeSwapRequest entry = Some request /\
    autoSlippage entry = SwapService.slippageSettings_autoSlippage request cfg /\
    transactionType entry = type /\
    r_request r = request /\
    sellTokenAccount request = Some sellAcc /\
    (if decide (BUY = type)
     then FeeService.calculateFeeAmount (sellQuantity request) type cfg
     else Ok 0) = Ok buyFee /\
    getSwapInstructions W (S (length (trace st)))
      (SwapService.swapInstructionRequest request cfg (sellQuantity request - buyFee))
      (userPublicKey request) = Ok si /\
    swapInstructions si = Some routes /\
    routes <> [] /\
    SwapService.feeTransferStep request cfg type sellAcc buyFee (quote si) st = (Ok feeIx, st) /\
    message entry =
      {| payerKey := feePayer W; recentBlockhash := bh;
         instructions :=
           ComputeUnitLimitIx budget.1 :: ComputeUnitPriceIx budget.2 ::
           map (reassignRent W)
             (SwapService.organizeInstructions routes feeIx
                (if decide (type = SELL_ALL)
                 then Some (TokenCloseIx (userPublicKey request) sellAcc (sellTokenId request))
                 else None)) |} /\
    transactionMessageBase64 r = serialize W (message entry).
Proof.
  unfold SwapService.buildSwapResponse. unfold_ops. cbn. intros H.
  break_run H.
  all: inversion H; subst; clear H.
  all: norm_time.
  all: do 9 eexists.
  all: repeat match goal with |- _ /\ _ => split end.
  all: cbn; try reflexivity; try eassumption; try discriminate.
  all: rewrite_hyps; try reflexivity.
  all: cbn; rewrite <- ?app_assoc; reflexivity.
Qed.

(** The events of one build, whatever its outcome: the build itself, then at
    most one quote request, for the sell quantity less the fee computed up
    front, then at most one registration. *)
Lemma build_events W request cfg n st res st' :
  SwapService.buildSwapResponse W request cfg n st = (res, st') ->
  trace st' = trace st ++ [EvBuild n] \/
  exists type buyFee,
    determineTransactionType W (S (length (trace st))) request = Ok type /\
    (if decide (BUY = type)
     then FeeService.calculateFeeAmount (sellQuantity request) type cfg
     else Ok 0) = Ok buyFee /\
    let q := SwapService.swapInstructionRequest request cfg (sellQuantity request - buyFee) in
    trace st' = trace st ++ [EvBuild n; EvQuote q] \/
    exists key, trace st' = trace st ++ [EvBuild n; EvQuote q; EvRegister key].
Proof.
  unfold SwapService.buildSwapResponse. unfold_ops. cbn. intros H.
  break_run H.
  all: inversion H; subst; clear H.
  all: norm_time.
  all: rewrite <- ?app_assoc; cbn.
  all: try (left; reflexivity).
  all: right; do 2 eexists; split; [eassumption|]; split; [rewrite_hyps; reflexivity|].
  all: cbn; try (left; reflexivity); right; eexists; reflexivity.
Qed.

Lemma builds_app (a b : list Event) : builds (a ++ b) = builds a ++ builds b.
Proof. unfold builds. apply omap_app. Qed.

Lemma quotes_app (a b : list Event) : quotes (a ++ b) = quotes a ++ quotes b.
Proof. unfold quotes. apply omap_app. Qed.

(** One build is one recorded attempt. *)
Lemma build_builds W request cfg n st res st' :
  SwapService.buildSwapResponse W request cfg n st = (res, st') ->
  builds (trace st') = builds (trace st) ++ [n].
Proof.
  intros H. apply build_events in H.
  destruct H as [-> | (type & fee & _ & _ & [-> | [key ->]])];
    rewrite builds_app; reflexivity.
Qed.

(** ** Instruction order *)

Lemma organizeInstructions_app routes fee close :
  SwapService.organizeInstructions routes fee close
  = routes ++ option_list fee ++ option_list close.
Proof.
  unfold SwapService.organizeInstructions.
  destruct fee, close; cbn; rewrite <- ?app_assoc, ?app_nil_r; reflexivity.
Qed.

(** C7: the assembled instruction order is the route instructions in their
    original order, then the fee transfer when present, then the token
    account close when present; the close instruction is produced for
    SELL_ALL only; and this is the order, after the two compute-budget
    instructions, of the message that a successful build registers: the
    quote provider's instructions, the fee transfer, the close of the sell
    token account for SELL_ALL. *)
Theorem organizeInstructions_order :
  (forall routes fee close,
     SwapService.organizeInstructions routes fee close
     = routes ++ option_list fee ++ option_list close) /\
  (forall owner account mint quantity type st,
     exists close,
       TransactionService.createTokenCloseInstruction owner account mint quantity type st
       = (Ok close, st) /\
       (is_Some close <-> type = SELL_ALL)) /\
  (forall W request cfg n st r st',
     SwapService.buildSwapResponse W request cfg n st = (Ok r, st') ->
     exists entry sellAcc buyFee si routes fee budget,
       registry st' !! transactionMessageBase64 r = Some entry /\
       getSwapInstructions W (S (length (trace st)))
         (SwapService.swapInstructionRequest request cfg (sellQuantity request - buyFee))
         (userPublicKey request) = Ok si /\
       swapInstructions si = Some routes /\
       SwapService.feeTransferStep request cfg (transactionType entry) sellAcc buyFee
         (quote si) st = (Ok fee, st) /\
       instructions (message entry)
       = ComputeUnitLimitIx budget.1 :: ComputeUnitPriceIx budget.2 ::
         map (reassignRent W)
           (routes ++ option_list fee ++
            (if decide (transactionType entry = SELL_ALL)
             then [TokenCloseIx (userPublicKey request) sellAcc (sellTokenId request)]
             else []))).
Proof.
  split; [exact organizeInstructions_app|]. split.
  - intros owner account mint quantity type st.
    unfold TransactionService.createTokenCloseInstruction. unfold_ops.
    eexists; split; [reflexivity|].
    destruct (decide (type = SELL_ALL)) as [->|Hne]; split; intros H; eauto.
    + destruct H as [x Hx]; discriminate.
    + contradiction.
  - intros W request cfg n st r st' H.
    apply build_ok in H.
    destruct H as (entry & sellAcc & type & buyFee & si & routes & feeIx & budget & bh
                   & Hreg & _ & _ & _ & _ & _ & _ & _ & Hty & _ & _ & _ & Hquote
                   & Hroutes & _ & Hstep & Hmsg & _).
    exists entry, sellAcc, buyFee, si, routes, feeIx, budget.
    split; [rewrite Hreg; apply lookup_insert_eq|].
    split; [exact Hquote|]. split; [exact Hroutes|].
    rewrite Hty. split; [exact Hstep|].
    rewrite Hmsg. cbn. rewrite organizeInstructions_app.
    destruct (decide (type = SELL_ALL)); reflexivity.
Qed.

(** A SELL_ALL build in the demo world: two route instructions, the fee
    transfer on the quoted output, the close. *)
Lemma organizeInstructions_order_witness :
  let W := demoWorld (fun _ => demoConfig true 3) SELL_ALL (fun _ => true) 0 in
  exists r st',
    SwapService.buildSwapResponse W (demoActiveRequest None) (demoConfig true 3) 1 emptyState
    = (Ok r, st') /\
    (exists entry,
       registry st' !! transactionMessageBase64 r = Some entry /\
       instructions (message entry)
       = [ComputeUnitLimitIx 200000; ComputeUnitPriceIx 1000;
          RouteIx "jupiter" 1; RouteIx "jupiter" 2;
          FeeTransferIx "buyAccount" "wallet" 5000;
          TokenCloseIx "wallet" "sellAccount" "USDC"]) /\
    exists entry sellAcc buyFee si routes fee budget,
      registry st' !! transactionMessageBase64 r = Some entry /\
      getSwapInstructions W (S (length (trace emptyState)))
        (SwapService.swapInstructionRequest (demoActiveRequest None) (demoConfig true 3)
           (sellQuantity (demoActiveRequest None) - buyFee))
        (userPublicKey (demoActiveRequest None)) = Ok si /\
      swapInstructions si = Some routes /\
      SwapService.feeTransferStep (demoActiveRequest None) (demoConfig true 3)
        (transactionType entry) sellAcc buyFee (quote si) emptyState = (Ok fee, emptyState) /\
      instructions (message entry)
      = ComputeUnitLimitIx budget.1 :: ComputeUnitPriceIx budget.2 ::
        map (reassignRent W)
          (routes ++ option_list fee ++
           (if decide (transactionType entry = SELL_ALL)
            then [TokenCloseIx (userPublicKey (demoActiveRequest None)) sellAcc
                    (sellTokenId (demoActiveRequest None))]
            else [])).
Proof.
  cbn zeta. eexists _, _. split; [vm_compute; reflexivity|].
  split; [eexists; split; vm_compute; reflexivity|].
  apply (proj2 (proj2 organizeInstructions_order)
           (demoWorld (fun _ => demoConfig true 3) SELL_ALL (fun _ => true) 0)
           (demoActiveRequest None) (demoConfig true 3) 1 emptyState).
  vm_compute; reflexivity.
Defined.

(** ** Slippage guards *)

Lemma truthy_nonzero (s : Z) : s <> 0 -> truthy (Some s) = true.
Proof. intros H. cbn. apply negb_true_iff, Z.eqb_neq, H. Qed.

(** C6, as the code has it: a request whose slippageBps is a non-zero value
    outside [MIN_SLIPPAGE_BPS, USER_SLIPPAGE_BPS_MAX] makes buildSwapResponse
    throw a validation error before any quote is requested and with the
    registry untouched; a request whose slippageBps is unset, zero or inside
    the range passes both slippage guards. *)
Theorem slippage_validation W request cfg n st :
  (forall s,
     slippageBps request = Some s -> s <> 0 ->
     s < MIN_SLIPPAGE_BPS cfg \/ USER_SLIPPAGE_BPS_MAX cfg < s ->
     exists e st',
       SwapService.buildSwapResponse W request cfg n st = (Throw e, st') /\
       (e = Error "Sell token account is required but was not provided" \/
        e = Error "Slippage bps is too high" \/
        e = ErrorSlippageMin (MIN_SLIPPAGE_BPS cfg)) /\
       registry st' = registry st /\
       trace st' = trace st ++ [EvBuild n] /\
       quotes (trace st') = quotes (trace st)) /\
  (slippageBps request = None \/ slippageBps request = Some 0 \/
   (exists s, slippageBps request = Some s /\
              MIN_SLIPPAGE_BPS cfg <= s <= USER_SLIPPAGE_BPS_MAX cfg) ->
   SwapService.slippageGuards request cfg st = (Ok tt, st)).
Proof.
  split.
  - intros s Hs Hnz Hout.
    unfold SwapService.buildSwapResponse, SwapService.slippageGuards,
      SwapService.slippageAbove, SwapService.slippageBelow.
    unfold_ops. cbn. rewrite Hs, (truthy_nonzero s Hnz). cbn.
    destruct (sellTokenAccount request) as [acc|]; cbn.
    + destruct (s >? USER_SLIPPAGE_BPS_MAX cfg) eqn:Habove; cbn.
      * eexists _, _. split; [reflexivity|]. cbn.
        rewrite quotes_app, app_nil_r. auto.
      * assert (Hbelow : (s <? MIN_SLIPPAGE_BPS cfg) = true) by lia.
        rewrite Hbelow. cbn.
        eexists _, _. split; [reflexivity|]. cbn.
        rewrite quotes_app, app_nil_r. auto 6.
    + eexists _, _. split; [reflexivity|]. cbn.
      rewrite quotes_app, app_nil_r. auto.
  - intros H.
    unfold SwapService.slippageGuards, SwapService.slippageAbove, SwapService.slippageBelow.
    unfold_ops.
    destruct H as [-> | [-> | (s & -> & Hlo & Hhi)]]; cbn; try reflexivity.
    assert (Ha : (s >? USER_SLIPPAGE_BPS_MAX cfg) = false) by lia.
    assert (Hb : (s <? MIN_SLIPPAGE_BPS cfg) = false) by lia.
    rewrite Ha, Hb, !andb_false_r. reflexivity.
Qed.

(** A slippage of 5000 bps against a user maximum of 1000 bps. *)
Lemma slippage_validation_witness :
  exists e st',
    SwapService.buildSwapResponse
      (demoWorld (fun _ => demoConfig true 3) BUY (fun _ => true) 0)
      (demoActiveRequest (Some 5000)) (demoConfig true 3) 1 emptyState = (Throw e, st') /\
    (e = Error "Sell token account is required but was not provided" \/
     e = Error "Slippage bps is too high" \/
     e = ErrorSlippageMin 10) /\
    registry st' = registry emptyState /\
    trace st' = trace emptyState ++ [EvBuild 1] /\
    quotes (trace st') = quotes (trace emptyState).
Proof.
  apply (proj1 (slippage_validation
                  (demoWorld (fun _ => demoConfig true 3) BUY (fun _ => true) 0)
                  (demoActiveRequest (Some 5000)) (demoConfig true 3) 1 emptyState) 5000).
  - reflexivity.
  - lia.
  - right. vm_compute. reflexivity.
Defined.

(** C6 as stated fails: a slippageBps of 0 is set and lies below
    MIN_SLIPPAGE_BPS = 10, yet the guards let it through and the build
    returns a response. *)
Lemma slippage_zero_not_rejected :
  let W := demoWorld (fun _ => demoConfig true 3) BUY (fun _ => true) 0 in
  let request := demoActiveRequest (Some 0) in
  let cfg := demoConfig true 3 in
  slippageBps request = Some 0 /\
  0 < MIN_SLIPPAGE_BPS cfg /\
  ~ (exists e st', SwapService.buildSwapResponse W request cfg 1 emptyState = (Throw e, st')).
Proof.
  cbn zeta. split; [reflexivity|]. split; [reflexivity|].
  intros (e & st' & H). vm_compute in H. discriminate H.
Qed.

(** ** Fee placement *)






(** ** The rebuild loop *)

Lemma attemptRange_nil lo hi : hi < lo -> Service.attemptRange lo hi = [].
Proof. intros H. unfold Service.attemptRange. apply seqZ_nil. lia. Qed.

Lemma attemptRange_cons lo hi :
  lo <= hi -> Service.attemptRange lo hi = lo :: Service.attemptRange (lo + 1) hi.
Proof.
  intros H. unfold Service.attemptRange. rewrite seqZ_cons by lia.
  f_equal. f_equal; lia.
Qed.

Lemma attemptRange_length lo hi :
  length (Service.attemptRange lo hi) = Z.to_nat (hi + 1 - lo).
Proof. unfold Service.attemptRange. apply length_seqZ. Qed.



(** The loop over a list of attempts: the attempts made are a prefix of the
    list; a response comes from the last attempt made and is the only
    change of the registry; a failure changes nothing in the registry. *)
Lemma rebuildLoop_run W request cfg attempts st res st' :
  Service.rebuildLoop W request cfg attempts st = (res, st') ->
  exists done,
    done `prefix_of` attempts /\
    builds (trace st') = builds (trace st) ++ done /\
    match res with
    | Ok r =>
        exists entry a,
          last done = Some a /\
          registry st' = <[transactionMessageBase64 r := entry]> (registry st) /\
          buildAttempts entry = a /\
          storedConfig entry = Some cfg /\
          activeSwapRequest entry = Some request
    | Throw _ => registry st' = registry st
    end.
Proof.
  revert st. induction attempts as [|a rest IH]; intros st H.
  - cbn in H. unfold_ops. injection H as <- <-.
    exists []. split; [apply prefix_nil|]. rewrite app_nil_r. auto.
  - cbn [Service.rebuildLoop] in H. unfold try_catch in H.
    destruct (SwapService.buildSwapResponse W request cfg a st) as [[r|e] st1] eqn:Hb.
    + injection H as <- <-. exists [a].
      split; [apply prefix_cons, prefix_nil|].
      split; [eapply build_builds; eassumption|].
      apply build_ok in Hb.
      destruct Hb as (entry & sellAcc & type & buyFee & si & routes & feeIx & budget & bh
                      & Hreg & _ & _ & _ & Hn & Hcfg & Hreq & _).
      exists entry, a. auto.
    + pose proof (build_builds _ _ _ _ _ _ _ Hb) as Hbuilds.
      apply build_fail in Hb. destruct Hb as (Hreg & _ & _).
      destruct ((a >=? MAX_BUILD_ATTEMPTS cfg) || bool_decide (slippageBps request <> None)).
      * unfold throw in H. injection H as <- <-. exists [a].
        split; [apply prefix_cons, prefix_nil|]. auto.
      * apply IH in H. destruct H as (done & Hpre & Htr & Hres).
        exists (a :: done). split; [apply prefix_cons, Hpre|].
        split; [rewrite Htr, Hbuilds, <- app_assoc; reflexivity|].
        destruct res as [r|e'].
        -- destruct Hres as (entry & b & Hlast & Hreg' & Hrest).
           exists entry, b. split.
           ++ destruct done; [discriminate|]. rewrite last_cons_cons. exact Hlast.
           ++ rewrite Hreg', Hreg. auto.
        -- rewrite Hres. exact Hreg.
Qed.





(** ** Submission *)

(** [Service.signAndSendTransaction] on a registered key: the live
    configuration is read, the submitter is called with it, and the
    [catch] block handles what the call throws. *)
Lemma signAndSendTransaction_run W jwt sig key st ctx entry :
  getUserContext W jwt = Ok ctx ->
  registry st !! key = Some entry ->
  Service.signAndSendTransaction W jwt sig key st =
  let live := config W (length (trace st)) in
  let out := submit W (S (length (trace st))) (walletPublicKey ctx) sig entry live (registry st) in
  match out.1 with
  | Resolves resp => (Ok resp, afterSubmit st entry out.2)
  | Throws e => Service.onSubmitError W key entry live e (afterSubmit st entry out.2)
  | Rejects e => (Throw e, afterSubmit st entry out.2)
  end.
Proof.
  intros Hauth Hfound.
  unfold Service.signAndSendTransaction. unfold_ops.
  rewrite Hauth. cbn. rewrite Hfound. cbn.
  rewrite length_app, Nat.add_1_r. cbn.
  unfold afterSubmit, set_registry. cbn. rewrite <- app_assoc. cbn.
  destruct (submit W (S (length (trace st))) (walletPublicKey ctx) sig entry
              (config W (length (trace st))) (registry st)) as [[resp|e|e] reg']; reflexivity.
Qed.

(** The [catch] block: rethrow, or delete the stale entry and rebuild from
    what the entry stores. *)
Lemma onSubmitError_run W key entry live e st1 :
  Service.onSubmitError W key entry live e st1 =
  if rethrows entry live then (Throw (ErrorJSON e), st1)
  else
    match activeSwapRequest entry, storedConfig entry with
    | Some req, Some snapshot =>
        match Service.buildSwapResponseWithRebuild W req snapshot (buildAttempts entry)
                (set_registry (delete key) st1) with
        | (Ok r, st2) =>
            (Ok {| responseType := rebuild; txid := None; rebuilt := Some r; error := None |}, st2)
        | (Throw e', st2) => (Throw e', st2)
        end
    | None, _ => (Throw (Error "ActiveSwapRequest is not set"), st1)
    | Some _, None => (Throw (Error "Config is not set"), st1)
    end.
Proof.
  unfold Service.onSubmitError, rethrows.
  destruct (decide (transactionType entry = TRANSFER)) as [Ht|Ht].
  - rewrite (bool_decide_eq_true_2 _ Ht). reflexivity.
  - rewrite (bool_decide_eq_false_2 _ Ht). cbn [orb].
    destruct ((buildAttempts entry + 1 >=? MAX_BUILD_ATTEMPTS live) || negb (autoSlippage entry));
      [reflexivity|].
    destruct (activeSwapRequest entry) as [req|]; [|reflexivity].
    destruct (storedConfig entry) as [snapshot|]; [|reflexivity].
    unfold_ops. cbn.
    destruct (Service.buildSwapResponseWithRebuild W req snapshot (buildAttempts entry)
                (set_registry (delete key) st1)) as [[r|e'] st2]; reflexivity.
Qed.

Lemma rethrows_spec entry live :
  rethrows entry live = true <->
  transactionType entry = TRANSFER \/
  buildAttempts entry + 1 >= MAX_BUILD_ATTEMPTS live \/
  autoSlippage entry = false.
Proof.
  unfold rethrows. rewrite !orb_true_iff, bool_decide_eq_true, negb_true_iff.
  rewrite Z.geb_le. intuition lia.
Qed.


(** C2, as the code has it: when the submitter call throws, the error is
    rethrown without a rebuild exactly when the entry is a TRANSFER, or
    buildAttempts + 1 reaches the live MAX_BUILD_ATTEMPTS, or the entry's
    autoSlippage flag is off; the flag of an entry made by buildSwapResponse
    is off exactly when the request carried a non-zero slippageBps or
    AUTO_SLIPPAGE was off at build time.  In every other case (the entry
    storing its request and configuration) the stale entry is deleted and
    the rebuild loop is run from the stored request, the stored
    configuration and the stored attempt count; its response is returned as
    a rebuild outcome, its failure is thrown. *)
Theorem submission_failure_outcome W jwt sig key st ctx entry e reg' :
  getUserContext W jwt = Ok ctx ->
  registry st !! key = Some entry ->
  submit W (S (length (trace st))) (walletPublicKey ctx) sig entry
    (config W (length (trace st))) (registry st) = (Throws e, reg') ->
  let live := config W (length (trace st)) in
  let st1 := afterSubmit st entry reg' in
  (rethrows entry live = true <->
     transactionType entry = TRANSFER \/
     buildAttempts entry + 1 >= MAX_BUILD_ATTEMPTS live \/
     autoSlippage entry = false) /\
  (rethrows entry live = true ->
     Service.signAndSendTransaction W jwt sig key st = (Throw (ErrorJSON e), st1)) /\
  (rethrows entry live = false ->
     forall req snapshot,
       activeSwapRequest entry = Some req ->
       storedConfig entry = Some snapshot ->
       Service.signAndSendTransaction W jwt sig key st =
       match Service.buildSwapResponseWithRebuild W req snapshot (buildAttempts entry)
               (set_registry (delete key) st1) with
       | (Ok r, st2) =>
           (Ok {| responseType := rebuild; txid := None; rebuilt := Some r; error := None |}, st2)
       | (Throw e', st2) => (Throw e', st2)
       end) /\
  (forall request cfg n st0 r st0' built,
     SwapService.buildSwapResponse W request cfg n st0 = (Ok r, st0') ->
     registry st0' !! transactionMessageBase64 r = Some built ->
     autoSlippage built = negb (truthy (slippageBps request)) && AUTO_SLIPPAGE cfg).
Proof.
  intros Hauth Hfound Hsub live st1.
  split; [apply rethrows_spec|].
  rewrite (signAndSendTransaction_run W jwt sig key st ctx entry Hauth Hfound).
  cbn zeta. rewrite Hsub. cbn [fst snd]. rewrite onSubmitError_run.
  fold live. fold st1.
  split; [intros ->; reflexivity|]. split.
  - intros -> req snapshot -> ->. reflexivity.
  - intros request cfg n st0 r st0' built Hb Hlook.
    apply build_ok in Hb.
    destruct Hb as (entry' & sellAcc & type & buyFee & si & routes & feeIx & budget & bh
                    & Hreg & _ & _ & _ & _ & _ & _ & Hauto & _).
    rewrite Hreg, lookup_insert_eq in Hlook. injection Hlook as <-.
    rewrite Hauto. unfold SwapService.slippageSettings_autoSlippage.
    destruct (truthy (slippageBps request)); reflexivity.
Qed.

(** An automatic-slippage BUY built at attempt 1 of 3 whose submission
    fails: the stale entry is deleted and the rebuild succeeds at
    attempt 2. *)
Lemma submission_failure_outcome_witness :
  let W := demoWorld (fun _ => demoConfig true 3) BUY (fun _ => true) 0 in
  let st := (Service.fetchSwap W "alice" (demoRequest None) emptyState).2 in
  exists entry,
    registry st !! "3"%string = Some entry /\
    rethrows entry (config W (length (trace st))) = false /\
    builds (trace (Service.signAndSendTransaction W "alice" "signature" "3" st).2) = [1; 2] /\
    Service.signAndSendTransaction W "alice" "signature" "3" st =
    match Service.buildSwapResponseWithRebuild W (demoActiveRequest None) (demoConfig true 3)
            (buildAttempts entry)
            (set_registry (delete "3"%string) (afterSubmit st entry (registry st))) with
    | (Ok r', st2) =>
        (Ok {| responseType := rebuild; txid := None; rebuilt := Some r'; error := None |}, st2)
    | (Throw e', st2) => (Throw e', st2)
    end.
Proof.
  intros W st.
  destruct (registry st !! "3"%string) as [entry|] eqn:Hfound; [|vm_compute in Hfound; discriminate].
  exists entry. split; [reflexivity|].
  pose proof Hfound as Hval. vm_compute in Hval. injection Hval as Hval.
  assert (Hre : rethrows entry (config W (length (trace st))) = false)
    by (rewrite <- Hval; vm_compute; reflexivity).
  split; [exact Hre|]. split; [vm_compute; reflexivity|].
  apply (proj1 (proj2 (proj2 (submission_failure_outcome W "alice" "signature" "3" st
            {| userId := "alice"; walletPublicKey := "wallet" |} entry
            (Error "on-chain failure") (registry st) eq_refl Hfound eq_refl))) Hre).
  - rewrite <- Hval. reflexivity.
  - rewrite <- Hval. reflexivity.
Defined.

(** C2 as stated fails: with AUTO_SLIPPAGE off at build time, a BUY without
    slippageBps, built at attempt 1 of 3, is not rebuilt when its
    submission fails; the error is rethrown. *)
Lemma no_rebuild_without_auto_slippage :
  let W := demoWorld (fun _ => demoConfig false 3) BUY (fun _ => true) 0 in
  exists r st entry req,
    Service.fetchSwap W "alice" (demoRequest None) emptyState = (Ok r, st) /\
    registry st !! transactionMessageBase64 r = Some entry /\
    transactionType entry <> TRANSFER /\
    activeSwapRequest entry = Some req /\ slippageBps req = None /\
    buildAttempts entry + 1 < MAX_BUILD_ATTEMPTS (config W (length (trace st))) /\
    (Service.signAndSendTransaction W "alice" "signature" (transactionMessageBase64 r) st).1
    = Throw (ErrorJSON (Error "on-chain failure")).
Proof.
  cbn zeta. eexists _, _, _, _.
  split; [vm_compute; reflexivity|]. split; [vm_compute; reflexivity|].
  split; [discriminate|]. split; [reflexivity|]. split; [reflexivity|].
  split; [reflexivity|]. vm_compute; reflexivity.
Qed.

(** ** The stored configuration *)




(** ** Consumption of registry entries *)




(** ** Transfers *)



(** ** Swap streams *)

Lemma startSwapStream_active userId req st sub :
  swapSubscriptions st !! userId = Some sub ->
  SwapService.startSwapStream userId req st = (Ok (Some (subject sub)), st).
Proof.
  intros H. unfold SwapService.startSwapStream, SwapService.hasActiveStream.
  rewrite H. rewrite bool_decide_eq_true_2 by eauto. cbn. rewrite H. reflexivity.
Qed.

Lemma startSwapStream_fresh userId req st :
  swapSubscriptions st !! userId = None ->
  exists st',
    SwapService.startSwapStream userId req st = (Ok (Some (nextHandle st)), st') /\
    swapSubscriptions st' !! userId
    = Some {| subject := nextHandle st; subscription := S (nextHandle st); request := req |}.
Proof.
  intros H. unfold SwapService.startSwapStream, SwapService.hasActiveStream.
  rewrite H. rewrite bool_decide_eq_false_2 by (intros [x Hx]; discriminate). cbn.
  rewrite lookup_insert_eq. eexists. split; [reflexivity|]. cbn. apply lookup_insert_eq.
Qed.

(** C9: a second startSwapStream for the same user changes nothing and
    returns the subject that the first call returned, in the swap service
    and through the coordinator; updateSwapRequest for a user without an
    active stream throws "No active swap stream found to update" and leaves
    the state as it was, so nothing is built or registered. *)
Theorem swap_stream_start_idempotent W :
  (forall userId r1 r2 st,
     exists h st1,
       SwapService.startSwapStream userId r1 st = (Ok (Some h), st1) /\
       SwapService.startSwapStream userId r2 st1 = (Ok (Some h), st1)) /\
  (forall jwt q1 q2 st ctx,
     getUserContext W jwt = Ok ctx ->
     exists h st1,
       Service.startSwapStream W jwt q1 st = (Ok (Some h), st1) /\
       Service.startSwapStream W jwt q2 st1 = (Ok (Some h), st1)) /\
  (forall jwt q st ctx,
     getUserContext W jwt = Ok ctx ->
     swapSubscriptions st !! userId ctx = None ->
     Service.updateSwapRequest W jwt q st
     = (Throw (Error "No active swap stream found to update"), st)).
Proof.
  assert (Hsvc : forall userId r1 r2 st,
             exists h st1,
               SwapService.startSwapStream userId r1 st = (Ok (Some h), st1) /\
               SwapService.startSwapStream userId r2 st1 = (Ok (Some h), st1)).
  { intros userId r1 r2 st.
    destruct (swapSubscriptions st !! userId) as [sub|] eqn:Hsub.
    - exists (subject sub), st. split; apply startSwapStream_active; exact Hsub.
    - destruct (startSwapStream_fresh userId r1 st Hsub) as (st1 & Hrun & Hnew).
      exists (nextHandle st), st1. split; [exact Hrun|].
      apply (startSwapStream_active userId r2 st1 _ Hnew). }
  split; [exact Hsvc|]. split.
  - intros jwt q1 q2 st ctx Hauth.
    unfold Service.startSwapStream. unfold_ops. rewrite Hauth. apply Hsvc.
  - intros jwt q st ctx Hauth Hnone.
    unfold Service.updateSwapRequest, SwapService.hasActiveStream. unfold_ops.
    rewrite Hauth. cbn. rewrite Hnone.
    rewrite bool_decide_eq_false_2 by (intros [x Hx]; discriminate). reflexivity.
Qed.

(** Alice updates without a stream; then starts twice. *)
Lemma swap_stream_start_idempotent_witness :
  let W := demoWorld (fun _ => demoConfig true 3) BUY (fun _ => true) 0 in
  Service.updateSwapRequest W "alice" (demoRequest None) emptyState
  = (Throw (Error "No active swap stream found to update"), emptyState) /\
  exists h st1,
    Service.startSwapStream W "alice" (demoRequest None) emptyState = (Ok (Some h), st1) /\
    Service.startSwapStream W "alice" (demoRequest (Some 100)) st1 = (Ok (Some h), st1).
Proof.
  cbn zeta. split.
  - apply (proj2 (proj2 (swap_stream_start_idempotent
             (demoWorld (fun _ => demoConfig true 3) BUY (fun _ => true) 0)))
             "alice" (demoRequest None) emptyState
             {| userId := "alice"; walletPublicKey := "wallet" |}); reflexivity.
  - apply (proj1 (proj2 (swap_stream_start_idempotent
             (demoWorld (fun _ => demoConfig true 3) BUY (fun _ => true) 0)))
             "alice" (demoRequest None) (demoRequest (Some 100)) emptyState
             {| userId := "alice"; walletPublicKey := "wallet" |}); reflexivity.
Defined.

(** C10: startSwapStream for a user who already has a stream discards its
    request argument: the state, and with it the stored request, is
    unchanged, the next firing of the interval builds from the stored
    request, and updateActiveRequest is what replaces the stored request. *)
Theorem second_start_discards_request W userId r2 st sub :
  swapSubscriptions st !! userId = Some sub ->
  let st2 := (SwapService.startSwapStream userId r2 st).2 in
  st2 = st /\
  SwapService.getActiveRequest userId st2 = Some (request sub) /\
  SwapService.streamTick W userId st2
  = (t ← now;
     emit EvConfig ;;
     r ← SwapService.buildSwapResponse W (request sub) (config W t) 0;
     mret (Some r)) st /\
  (forall r3,
     SwapService.getActiveRequest userId (SwapService.updateActiveRequest userId r3 st2).2
     = Some r3).
Proof.
  intros Hsub st2.
  assert (Hst : st2 = st)
    by (unfold st2; rewrite (startSwapStream_active userId r2 st sub Hsub); reflexivity).
  rewrite Hst. split; [reflexivity|].
  assert (Hreq : SwapService.getActiveRequest userId st = Some (request sub))
    by (unfold SwapService.getActiveRequest; rewrite Hsub; reflexivity).
  split; [exact Hreq|]. split.
  - unfold SwapService.streamTick. rewrite Hreq. reflexivity.
  - intros r3. unfold SwapService.updateActiveRequest, SwapService.getActiveRequest.
    rewrite Hsub. cbn. rewrite lookup_insert_eq. reflexivity.
Qed.

(** Alice starts with an automatic-slippage request and starts again with a
    100 bps request: the stored request is still the first one. *)
Lemma second_start_discards_request_witness :
  let st := (SwapService.startSwapStream "alice" (demoActiveRequest None) emptyState).2 in
  let st2 := (SwapService.startSwapStream "alice" (demoActiveRequest (Some 100)) st).2 in
  st2 = st /\
  SwapService.getActiveRequest "alice" st2 = Some (demoActiveRequest None).
Proof.
  intros st st2.
  pose proof (second_start_discards_request
                (demoWorld (fun _ => demoConfig true 3) BUY (fun _ => true) 0)
                "alice" (demoActiveRequest (Some 100)) st
                {| subject := 0; subscription := 1; request := demoActiveRequest None |}
                eq_refl) as H.
  cbn zeta in H. destruct H as (H1 & H2 & _). split; [exact H1|exact H2].
Defined.

(** * Further properties of the services *)

(** ** Transfers: the remaining branches *)

(** X1: a transfer of a token that is neither SOL nor USDC is refused
    before any chain read, and nothing is registered. *)
Theorem getTransfer_invalid_token W req st :
  tokenId req <> "SOLANA"%string ->
  tokenId req <> USDC_MAINNET_PUBLIC_KEY W ->
  TransferService.getTransfer W req st = (Throw (Error "Invalid transfer request"), st).
Proof.
  intros Hsol Husdc.
  apply String.eqb_neq in Hsol. apply String.eqb_neq in Husdc.
  unfold TransferService.getTransfer. unfold_ops. rewrite Hsol, Husdc. reflexivity.
Qed.

Lemma getTransfer_invalid_token_witness :
  TransferService.getTransfer
    (demoWorld (fun _ => demoConfig true 3) BUY (fun _ => true) 0)
    {| fromAddress := "alice"; toAddress := "bob"; t_amount := 50; tokenId := "MEME" |}
    emptyState
  = (Throw (Error "Invalid transfer request"), emptyState).
Proof.
  apply (getTransfer_invalid_token
           (demoWorld (fun _ => demoConfig true 3) BUY (fun _ => true) 0)
           {| fromAddress := "alice"; toAddress := "bob"; t_amount := 50; tokenId := "MEME" |}
           emptyState); discriminate.
Defined.

(** What every transfer that is built has registered. *)
Lemma getTransfer_ok W req st key st' :
  TransferService.getTransfer W req st = (Ok key, st') ->
  exists entry,
    registry st' = <[key := entry]> (registry st) /\
    key = serialize W (message entry) /\
    payerKey (message entry) = feePayer W /\
    transactionType entry = TRANSFER /\
    autoSlippage entry = false /\
    buildAttempts entry = 1 /\
    activeSwapRequest entry = None /\
    storedConfig entry = None /\
    swapSubscriptions st' = swapSubscriptions st /\
    trace st' = trace st ++ [EvRegister key].
Proof.
  unfold TransferService.getTransfer, TransferService.usdcTransferInstructions.
  unfold_ops. cbn. intros H.
  break_run H.
  all: inversion H; subst; clear H; cbn.
  all: eexists; repeat match goal with |- _ /\ _ => split end; cbn; reflexivity.
Qed.





(** X4: a transfer is never rebuilt: when the submitter call throws for an
    entry that getTransfer registered, signAndSendTransaction rethrows the
    error, whatever the live attempt budget is, and no build is made. *)
Theorem transfer_never_rebuilt W req st0 key st ctx jwt sig e reg' :
  TransferService.getTransfer W req st0 = (Ok key, st) ->
  getUserContext W jwt = Ok ctx ->
  (forall entry,
     registry st !! key = Some entry ->
     submit W (S (length (trace st))) (walletPublicKey ctx) sig entry
       (config W (length (trace st))) (registry st) = (Throws e, reg')) ->
  exists entry,
    registry st !! key = Some entry /\
    Service.signAndSendTransaction W jwt sig key st
    = (Throw (ErrorJSON e), afterSubmit st entry reg') /\
    builds (trace (afterSubmit st entry reg')) = builds (trace st).
Proof.
  intros Hbuilt Hauth Hsub.
  apply getTransfer_ok in Hbuilt.
  destruct Hbuilt as (entry & Hreg & _ & _ & Hty & _).
  assert (Hfound : registry st !! key = Some entry)
    by (rewrite Hreg; apply lookup_insert_eq).
  exists entry. split; [exact Hfound|].
  rewrite (signAndSendTransaction_run W jwt sig key st ctx entry Hauth Hfound).
  cbn zeta. rewrite (Hsub entry Hfound). cbn [fst snd].
  rewrite onSubmitError_run.
  assert (Hre : rethrows entry (config W (length (trace st))) = true)
    by (apply rethrows_spec; left; exact Hty).
  rewrite Hre. split; [reflexivity|].
  unfold afterSubmit. cbn. rewrite builds_app, app_nil_r. reflexivity.
Qed.

Lemma transfer_never_rebuilt_witness :
  let W := demoWorld (fun _ => demoConfig true 3) BUY (fun _ => true) 0 in
  let req := {| fromAddress := "alice"; toAddress := "bob"; t_amount := 50;
                tokenId := "SOLANA" |} in
  let st := (TransferService.getTransfer W req emptyState).2 in
  exists entry,
    registry st !! "0"%string = Some entry /\
    Service.signAndSendTransaction W "alice" "signature" "0" st
    = (Throw (ErrorJSON (Error "on-chain failure")), afterSubmit st entry (registry st)) /\
    builds (trace (afterSubmit st entry (registry st))) = builds (trace st).
Proof.
  intros W req st.
  apply (transfer_never_rebuilt W req emptyState "0"%string st
           {| userId := "alice"; walletPublicKey := "wallet" |} "alice" "signature"
           (Error "on-chain failure") (registry st)).
  - vm_compute; reflexivity.
  - reflexivity.
  - intros entry _. reflexivity.
Defined.



(** ** Swap streams: stopping, restarting, updating, firing *)

(** X6: stopSwapStream never throws; afterwards the user has no active
    stream and no stored request, the other users' subscriptions, the
    registry and the trace are as before, and for a user without a stream
    nothing changes at all. *)
Theorem stopSwapStream_clears userId st :
  exists st',
    SwapService.stopSwapStream userId st = (Ok tt, st') /\
    SwapService.hasActiveStream userId st' = false /\
    SwapService.getActiveRequest userId st' = None /\
    (forall other, other <> userId ->
       swapSubscriptions st' !! other = swapSubscriptions st !! other) /\
    registry st' = registry st /\
    trace st' = trace st /\
    (swapSubscriptions st !! userId = None -> st' = st).
Proof.
  unfold SwapService.stopSwapStream, SwapService.hasActiveStream, SwapService.getActiveRequest.
  destruct (swapSubscriptions st !! userId) as [sub|] eqn:Hsub.
  - eexists. split; [reflexivity|]. cbn. rewrite lookup_delete_eq.
    split; [apply bool_decide_eq_false_2; intros [x Hx]; discriminate|].
    split; [reflexivity|].
    split; [intros other Hne; apply lookup_delete_ne; congruence|].
    split; [reflexivity|]. split; [reflexivity|]. discriminate.
  - exists st. split; [reflexivity|]. rewrite Hsub.
    split; [apply bool_decide_eq_false_2; intros [x Hx]; discriminate|].
    auto 6.
Qed.

Lemma stopSwapStream_clears_witness :
  let st := (SwapService.startSwapStream "alice" (demoActiveRequest None) emptyState).2 in
  exists st',
    SwapService.stopSwapStream "alice" st = (Ok tt, st') /\
    SwapService.hasActiveStream "alice" st' = false /\
    SwapService.getActiveRequest "alice" st' = None.
Proof.
  intros st.
  destruct (stopSwapStream_clears "alice" st) as (st' & H1 & H2 & H3 & _).
  exists st'. auto.
Defined.

(** X7: after a stop, a start is a real start: from a state in which the
    user has no stream, start, stop, start returns a subject other than the
    first one and stores the request of the last start. *)
Theorem restart_allocates_new_subject userId r1 r2 st :
  swapSubscriptions st !! userId = None ->
  exists h1 st1 st2 h2 st3,
    SwapService.startSwapStream userId r1 st = (Ok (Some h1), st1) /\
    SwapService.stopSwapStream userId st1 = (Ok tt, st2) /\
    SwapService.startSwapStream userId r2 st2 = (Ok (Some h2), st3) /\
    h2 <> h1 /\
    SwapService.getActiveRequest userId st3 = Some r2.
Proof.
  intros Hnone.
  destruct (startSwapStream_fresh userId r1 st Hnone) as (st1 & Hrun1 & Hsub1).
  assert (Hnh : nextHandle st1 = S (S (nextHandle st))).
  { unfold SwapService.startSwapStream, SwapService.hasActiveStream in Hrun1.
    rewrite Hnone in Hrun1.
    rewrite bool_decide_eq_false_2 in Hrun1 by (intros [x Hx]; discriminate).
    cbn in Hrun1. injection Hrun1 as _ <-. reflexivity. }
  assert (Hstop : exists st2, SwapService.stopSwapStream userId st1 = (Ok tt, st2) /\
                              swapSubscriptions st2 !! userId = None /\
                              nextHandle st2 = nextHandle st1).
  { unfold SwapService.stopSwapStream. rewrite Hsub1. eexists. split; [reflexivity|].
    cbn. split; [apply lookup_delete_eq|reflexivity]. }
  destruct Hstop as (st2 & Hrun2 & Hsub2 & Hnh2).
  destruct (startSwapStream_fresh userId r2 st2 Hsub2) as (st3 & Hrun3 & Hsub3).
  exists (nextHandle st), st1, st2, (nextHandle st2), st3.
  split; [exact Hrun1|]. split; [exact Hrun2|]. split; [exact Hrun3|].
  split; [lia|].
  unfold SwapService.getActiveRequest. rewrite Hsub3. reflexivity.
Qed.

Lemma restart_allocates_new_subject_witness :
  exists h1 st1 st2 h2 st3,
    SwapService.startSwapStream "alice" (demoActiveRequest None) emptyState = (Ok (Some h1), st1) /\
    SwapService.stopSwapStream "alice" st1 = (Ok tt, st2) /\
    SwapService.startSwapStream "alice" (demoActiveRequest (Some 100)) st2 = (Ok (Some h2), st3) /\
    h2 <> h1 /\
    SwapService.getActiveRequest "alice" st3 = Some (demoActiveRequest (Some 100)).
Proof.
  apply (restart_allocates_new_subject "alice" (demoActiveRequest None)
           (demoActiveRequest (Some 100)) emptyState).
  reflexivity.
Defined.

(** X8: updateActiveRequest throws "No active swap stream found" and
    changes nothing for a user without a stream; for a user with one it
    replaces the stored request and keeps the subject and the interval
    subscription, the other users' subscriptions and the registry. *)
Theorem updateActiveRequest_behaviour userId req st :
  (swapSubscriptions st !! userId = None ->
     SwapService.updateActiveRequest userId req st
     = (Throw (Error "No active swap stream found"), st)) /\
  (forall sub,
     swapSubscriptions st !! userId = Some sub ->
     exists st',
       SwapService.updateActiveRequest userId req st = (Ok tt, st') /\
       swapSubscriptions st' !! userId
       = Some {| subject := subject sub; subscription := subscription sub; request := req |} /\
       (forall other, other <> userId ->
          swapSubscriptions st' !! other = swapSubscriptions st !! other) /\
       registry st' = registry st /\
       nextHandle st' = nextHandle st /\
       trace st' = trace st).
Proof.
  unfold SwapService.updateActiveRequest. split.
  - intros ->. reflexivity.
  - intros sub ->. eexists. split; [reflexivity|]. cbn.
    split; [apply lookup_insert_eq|].
    split; [intros other Hne; apply lookup_insert_ne; congruence|]. auto.
Qed.

Lemma updateActiveRequest_behaviour_witness :
  SwapService.updateActiveRequest "alice" (demoActiveRequest None) emptyState
  = (Throw (Error "No active swap stream found"), emptyState).
Proof.
  apply (proj1 (updateActiveRequest_behaviour "alice" (demoActiveRequest None) emptyState)).
  reflexivity.
Defined.

(** The rebuild loop and fetchSwap leave the stream subscriptions alone. *)
Lemma rebuildLoop_frame W request cfg attempts st res st' :
  Service.rebuildLoop W request cfg attempts st = (res, st') ->
  swapSubscriptions st' = swapSubscriptions st /\ nextHandle st' = nextHandle st.
Proof.
  revert st. induction attempts as [|a rest IH]; intros st H.
  - cbn in H. injection H as <- <-. auto.
  - cbn [Service.rebuildLoop] in H. unfold try_catch in H.
    destruct (SwapService.buildSwapResponse W request cfg a st) as [[r|e] st1] eqn:Hb.
    + injection H as <- <-. apply build_ok in Hb.
      destruct Hb as (entry & sellAcc & type & buyFee & si & routes & feeIx & budget & bh
                      & _ & Hs & Hn & _). auto.
    + apply build_fail in Hb. destruct Hb as (_ & Hs & Hn).
      destruct ((a >=? MAX_BUILD_ATTEMPTS cfg) || bool_decide (slippageBps request <> None)).
      * injection H as <- <-. auto.
      * apply IH in H. destruct H as [-> ->]. auto.
Qed.

Lemma fetchSwap_frame W jwt q st res st' :
  Service.fetchSwap W jwt q st = (res, st') ->
  swapSubscriptions st' = swapSubscriptions st /\ nextHandle st' = nextHandle st.
Proof.
  unfold Service.fetchSwap, Service.buildSwapResponseWithRebuild. unfold_ops.
  destruct (getUserContext W jwt) as [ctx|e]; cbn.
  - intros H. apply rebuildLoop_frame in H. exact H.
  - intros [= <- <-]. auto.
Qed.

(** X9: updateSwapRequest for a user with an active stream: when the new
    transaction is built, the response is returned and the stored request
    becomes the request derived from the update, under the same subject;
    when the build fails, the failure is thrown and the stored request is
    the old one. *)
Theorem updateSwapRequest_outcome W jwt q st ctx sub :
  getUserContext W jwt = Ok ctx ->
  swapSubscriptions st !! userId ctx = Some sub ->
  match Service.fetchSwap W jwt q st with
  | (Ok r, st1) =>
      exists st2,
        Service.updateSwapRequest W jwt q st = (Ok r, st2) /\
        swapSubscriptions st2 !! userId ctx
        = Some {| subject := subject sub; subscription := subscription sub;
                  request := Service.activeRequestOf W (walletPublicKey ctx) q |} /\
        registry st2 = registry st1
  | (Throw e, st1) =>
      Service.updateSwapRequest W jwt q st = (Throw e, st1) /\
      swapSubscriptions st1 !! userId ctx = Some sub
  end.
Proof.
  intros Hauth Hsub.
  destruct (Service.fetchSwap W jwt q st) as [[r|e] st1] eqn:Hfetch;
    pose proof (fetchSwap_frame _ _ _ _ _ _ Hfetch) as [Hs _].
  - unfold Service.updateSwapRequest, SwapService.hasActiveStream,
      SwapService.updateActiveRequest.
    unfold mbind, M_bind, mret, M_ret, throw, lift.
    rewrite Hauth. cbn. rewrite Hsub.
    rewrite bool_decide_eq_true_2 by eauto. cbn.
    rewrite Hfetch. rewrite Hs, Hsub. cbn.
    eexists. split; [reflexivity|]. cbn. split; [apply lookup_insert_eq|reflexivity].
  - unfold Service.updateSwapRequest, SwapService.hasActiveStream.
    unfold mbind, M_bind, mret, M_ret, throw, lift.
    rewrite Hauth. cbn. rewrite Hsub.
    rewrite bool_decide_eq_true_2 by eauto. cbn.
    rewrite Hfetch. split; [reflexivity|]. rewrite Hs. exact Hsub.
Qed.

(** Alice streams an automatic-slippage request and updates it to 100 bps. *)
Lemma updateSwapRequest_outcome_witness :
  let W := demoWorld (fun _ => demoConfig true 3) BUY (fun _ => true) 0 in
  let st := (SwapService.startSwapStream "alice" (demoActiveRequest None) emptyState).2 in
  exists r st2,
    Service.updateSwapRequest W "alice" (demoRequest (Some 100)) st = (Ok r, st2) /\
    SwapService.getActiveRequest "alice" st2 = Some (demoActiveRequest (Some 100)).
Proof.
  intros W st.
  pose proof (updateSwapRequest_outcome W "alice" (demoRequest (Some 100)) st
                {| userId := "alice"; walletPublicKey := "wallet" |}
                {| subject := 0; subscription := 1; request := demoActiveRequest None |}
                eq_refl eq_refl) as H.
  destruct (Service.fetchSwap W "alice" (demoRequest (Some 100)) st) as [[r|e] st1] eqn:Hfetch;
    [|vm_compute in Hfetch; discriminate].
  destruct H as (st2 & Hrun & Hsub & _).
  exists r, st2. split; [exact Hrun|].
  unfold SwapService.getActiveRequest. cbn [userId] in Hsub. rewrite Hsub. reflexivity.
Defined.

(** X10: one firing of a user's interval: without a stored request it does
    nothing; with one it makes exactly one build, numbered 0, from the
    stored request and the live configuration, never touches the
    subscriptions, and a response it emits is registered with attempt
    count 0 and with that request and configuration. *)
Theorem streamTick_behaviour W userId st :
  (swapSubscriptions st !! userId = None ->
     SwapService.streamTick W userId st = (Ok None, st)) /\
  (forall sub res st',
     swapSubscriptions st !! userId = Some sub ->
     SwapService.streamTick W userId st = (res, st') ->
     swapSubscriptions st' = swapSubscriptions st /\
     builds (trace st') = builds (trace st) ++ [0] /\
     res <> Ok None /\
     (forall r, res = Ok (Some r) ->
        exists entry,
          registry st' !! transactionMessageBase64 r = Some entry /\
          buildAttempts entry = 0 /\
          activeSwapRequest entry = Some (request sub) /\
          storedConfig entry = Some (config W (length (trace st))) /\
          r_request r = request sub)).
Proof.
  unfold SwapService.streamTick, SwapService.getActiveRequest. split.
  - intros ->. reflexivity.
  - intros sub res st' -> H. cbn in H. unfold_ops. cbn in H.
    destruct (SwapService.buildSwapResponse W (request sub) (config W (length (trace st))) 0
                {| registry := registry st; swapSubscriptions := swapSubscriptions st;
                   nextHandle := nextHandle st; trace := trace st ++ [EvConfig] |})
      as [[r|e] st1] eqn:Hb; injection H as <- <-.
    + pose proof (build_builds _ _ _ _ _ _ _ Hb) as Htr. cbn in Htr.
      rewrite builds_app, app_nil_r in Htr.
      apply build_ok in Hb.
      destruct Hb as (entry & sellAcc & type & buyFee & si & routes & feeIx & budget & bh
                      & Hreg & Hs & _ & _ & Hn & Hcfg & Hreq & _ & _ & Hr & _).
      split; [exact Hs|]. split; [exact Htr|]. split; [discriminate|].
      intros r' [= <-]. exists entry.
      split; [rewrite Hreg; apply lookup_insert_eq|]. auto.
    + pose proof (build_builds _ _ _ _ _ _ _ Hb) as Htr. cbn in Htr.
      rewrite builds_app, app_nil_r in Htr.
      apply build_fail in Hb. destruct Hb as (_ & Hs & _).
      split; [exact Hs|]. split; [exact Htr|]. split; [discriminate|]. discriminate.
Qed.

Lemma streamTick_behaviour_witness :
  let W := demoWorld (fun _ => demoConfig true 3) BUY (fun _ => true) 0 in
  SwapService.streamTick W "alice" emptyState = (Ok None, emptyState) /\
  let st := (SwapService.startSwapStream "alice" (demoActiveRequest None) emptyState).2 in
  builds (trace (SwapService.streamTick W "alice" st).2) = builds (trace st) ++ [0].
Proof.
  cbn zeta. split.
  - apply (proj1 (streamTick_behaviour
                    (demoWorld (fun _ => demoConfig true 3) BUY (fun _ => true) 0)
                    "alice" emptyState)). reflexivity.
  - set (W := demoWorld (fun _ => demoConfig true 3) BUY (fun _ => true) 0).
    set (st := (SwapService.startSwapStream "alice" (demoActiveRequest None) emptyState).2).
    destruct (SwapService.streamTick W "alice" st) as [res st'] eqn:Hrun.
    apply (proj2 (streamTick_behaviour W "alice" st)
             {| subject := 0; subscription := 1; request := demoActiveRequest None |} res st'
             eq_refl Hrun).
Defined.

(** ** Builds and their attempt counts *)

(** A prefix of the attempts that ends in [a] is the attempts up to [a]. *)
Lemma attemptRange_prefix_last done lo hi a :
  done `prefix_of` Service.attemptRange lo hi ->
  last done = Some a ->
  done = Service.attemptRange lo a /\ lo <= a <= hi.
Proof.
  revert lo. induction done as [|x d IH]; intros lo Hpre Hlast; [discriminate|].
  destruct (Z_lt_le_dec hi lo) as [Hlt|Hle].
  { rewrite (attemptRange_nil lo hi Hlt) in Hpre. destruct Hpre as [k Hk]. discriminate. }
  rewrite (attemptRange_cons lo hi Hle) in Hpre.
  pose proof (prefix_cons_inv_1 _ _ _ _ Hpre) as ->.
  apply prefix_cons_inv_2 in Hpre.
  destruct d as [|y d].
  - cbn in Hlast. injection Hlast as <-.
    rewrite (attemptRange_cons lo lo) by lia.
    rewrite attemptRange_nil by lia. split; [reflexivity|lia].
  - rewrite last_cons_cons in Hlast.
    destruct (IH (lo + 1) Hpre Hlast) as [Heq Hb].
    rewrite (attemptRange_cons lo a) by lia. rewrite <- Heq. split; [reflexivity|lia].
Qed.

(** X11: the attempt count stored with a response of fetchSwap is the
    number of builds the call made: the builds are numbered 1 up to the
    stored count, which lies between 1 and the MAX_BUILD_ATTEMPTS of the
    configuration read at the start of the call, and the entry stores that
    configuration and the derived request. *)
Theorem fetchSwap_attempt_accounting W jwt q st r st' :
  Service.fetchSwap W jwt q st = (Ok r, st') ->
  exists ctx entry,
    getUserContext W jwt = Ok ctx /\
    registry st' !! transactionMessageBase64 r = Some entry /\
    builds (trace st') = builds (trace st) ++ Service.attemptRange 1 (buildAttempts entry) /\
    1 <= buildAttempts entry <= MAX_BUILD_ATTEMPTS (config W (length (trace st))) /\
    storedConfig entry = Some (config W (length (trace st))) /\
    activeSwapRequest entry = Some (Service.activeRequestOf W (walletPublicKey ctx) q).
Proof.
  unfold Service.fetchSwap, Service.buildSwapResponseWithRebuild. unfold_ops.
  destruct (getUserContext W jwt) as [ctx|e]; cbn; [|discriminate].
  intros H. apply rebuildLoop_run in H.
  destruct H as (done & Hpre & Htr & entry & a & Hlast & Hreg & Hn & Hcfg & Hreq).
  cbn in Htr, Hreg. rewrite builds_app, app_nil_r in Htr.
  destruct (attemptRange_prefix_last _ _ _ _ Hpre Hlast) as [-> Hb].
  exists ctx, entry. split; [reflexivity|].
  split; [rewrite Hreg; apply lookup_insert_eq|].
  rewrite Hn. split; [exact Htr|]. split; [lia|]. auto.
Qed.

(** The quote provider fails before logical time 4: two builds, count 2. *)
Lemma fetchSwap_attempt_accounting_witness :
  let W := demoWorld (fun _ => demoConfig true 3) BUY (fun t => (4 <=? t)%nat) 0 in
  exists r st' entry,
    Service.fetchSwap W "alice" (demoRequest None) emptyState = (Ok r, st') /\
    registry st' !! transactionMessageBase64 r = Some entry /\
    buildAttempts entry = 2 /\
    builds (trace st') = builds (trace emptyState) ++ Service.attemptRange 1 (buildAttempts entry).
Proof.
  cbn zeta. eexists _, _, _. split; [vm_compute; reflexivity|].
  split; [vm_compute; reflexivity|]. split; [reflexivity|].
  destruct (fetchSwap_attempt_accounting
              (demoWorld (fun _ => demoConfig true 3) BUY (fun t => (4 <=? t)%nat) 0)
              "alice" (demoRequest None) emptyState _ _ ltac:(vm_compute; reflexivity))
    as (ctx & entry & _ & Hfound & Htr & _).
  vm_compute in Hfound. injection Hfound as <-. exact Htr.
Defined.

(** X12: a rebuilt response continues its chain: when signAndSendTransaction
    returns a rebuild outcome, the new entry's attempt count is above the
    stale entry's and at most the stored MAX_BUILD_ATTEMPTS, the builds made
    are numbered from the stale count plus one up to the new count, and the
    new entry stores the same request and the same configuration. *)
Theorem rebuilt_entry_continues_chain W jwt sig key st ctx entry e reg' req snapshot resp st' :
  getUserContext W jwt = Ok ctx ->
  registry st !! key = Some entry ->
  submit W (S (length (trace st))) (walletPublicKey ctx) sig entry
    (config W (length (trace st))) (registry st) = (Throws e, reg') ->
  activeSwapRequest entry = Some req ->
  storedConfig entry = Some snapshot ->
  Service.signAndSendTransaction W jwt sig key st = (Ok resp, st') ->
  exists r built,
    resp = {| responseType := rebuild; txid := None; rebuilt := Some r; error := None |} /\
    registry st' !! transactionMessageBase64 r = Some built /\
    buildAttempts entry < buildAttempts built <= MAX_BUILD_ATTEMPTS snapshot /\
    builds (trace st')
    = builds (trace st) ++ Service.attemptRange (buildAttempts entry + 1) (buildAttempts built) /\
    activeSwapRequest built = Some req /\
    storedConfig built = Some snapshot.
Proof.
  intros Hauth Hfound Hsub Hreq Hcfg Hrun.
  rewrite (signAndSendTransaction_run W jwt sig key st ctx entry Hauth Hfound) in Hrun.
  cbn zeta in Hrun. rewrite Hsub in Hrun. cbn [fst snd] in Hrun.
  rewrite onSubmitError_run in Hrun.
  destruct (rethrows entry (config W (length (trace st)))); [discriminate|].
  rewrite Hreq, Hcfg in Hrun.
  unfold Service.buildSwapResponseWithRebuild in Hrun.
  destruct (Service.rebuildLoop W req snapshot
              (Service.attemptRange (buildAttempts entry + 1) (MAX_BUILD_ATTEMPTS snapshot))
              (set_registry (delete key) (afterSubmit st entry reg')))
    as [[r|e'] st2] eqn:Hloop; [|discriminate].
  injection Hrun as <- <-.
  apply rebuildLoop_run in Hloop.
  destruct Hloop as (done & Hpre & Htr & built & a & Hlast & Hreg & Hn & Hcfg' & Hreq').
  destruct (attemptRange_prefix_last _ _ _ _ Hpre Hlast) as [-> Hb].
  cbn in Htr. rewrite builds_app, app_nil_r in Htr.
  exists r, built. split; [reflexivity|].
  split; [rewrite Hreg; apply lookup_insert_eq|].
  rewrite Hn. split; [lia|]. auto.
Qed.

Lemma rebuilt_entry_continues_chain_witness :
  let W := demoWorld (fun _ => demoConfig true 3) BUY (fun _ => true) 0 in
  let st := (Service.fetchSwap W "alice" (demoRequest None) emptyState).2 in
  exists entry r built,
    registry st !! "3"%string = Some entry /\
    registry (Service.signAndSendTransaction W "alice" "signature" "3" st).2
      !! transactionMessageBase64 r = Some built /\
    buildAttempts entry < buildAttempts built <= 3.
Proof.
  intros W st.
  destruct (registry st !! "3"%string) as [entry|] eqn:Hfound;
    [|vm_compute in Hfound; discriminate].
  pose proof Hfound as Hval. vm_compute in Hval. injection Hval as Hval.
  destruct (Service.signAndSendTransaction W "alice" "signature" "3" st)
    as [[resp|e] st'] eqn:Hrun; [|vm_compute in Hrun; discriminate].
  assert (Hreq : activeSwapRequest entry = Some (demoActiveRequest None))
    by (rewrite <- Hval; reflexivity).
  assert (Hcfg : storedConfig entry = Some (demoConfig true 3))
    by (rewrite <- Hval; reflexivity).
  destruct (rebuilt_entry_continues_chain W "alice" "signature" "3"%string st
              {| userId := "alice"; walletPublicKey := "wallet" |} entry
              (Error "on-chain failure") (registry st) (demoActiveRequest None)
              (demoConfig true 3) resp st' eq_refl Hfound eq_refl Hreq Hcfg Hrun)
    as (r & built & _ & Hreg & Hb & _).
  exists entry, r, built. auto.
Defined.

(** X13: without attempts left the rebuild loop builds nothing: it throws
    "Failed to build swap response" and leaves the state as it was; so a
    submission failure that is rebuilt against a stored budget already
    used up costs the stale entry and yields no new one. *)
Theorem no_budget_no_build W :
  (forall request cfg prior st,
     MAX_BUILD_ATTEMPTS cfg <= prior ->
     Service.buildSwapResponseWithRebuild W request cfg prior st
     = (Throw (Error "Failed to build swap response"), st)) /\
  (forall jwt sig key st ctx entry e reg' req snapshot,
     getUserContext W jwt = Ok ctx ->
     registry st !! key = Some entry ->
     submit W (S (length (trace st))) (walletPublicKey ctx) sig entry
       (config W (length (trace st))) (registry st) = (Throws e, reg') ->
     rethrows entry (config W (length (trace st))) = false ->
     activeSwapRequest entry = Some req ->
     storedConfig entry = Some snapshot ->
     MAX_BUILD_ATTEMPTS snapshot <= buildAttempts entry ->
     Service.signAndSendTransaction W jwt sig key st
     = (Throw (Error "Failed to build swap response"),
        set_registry (delete key) (afterSubmit st entry reg'))).
Proof.
  assert (Hloop : forall request cfg prior st,
             MAX_BUILD_ATTEMPTS cfg <= prior ->
             Service.buildSwapResponseWithRebuild W request cfg prior st
             = (Throw (Error "Failed to build swap response"), st)).
  { intros request cfg prior st Hle. unfold Service.buildSwapResponseWithRebuild.
    rewrite attemptRange_nil by lia. reflexivity. }
  split; [exact Hloop|].
  intros jwt sig key st ctx entry e reg' req snapshot Hauth Hfound Hsub Hre Hreq Hcfg Hle.
  rewrite (signAndSendTransaction_run W jwt sig key st ctx entry Hauth Hfound).
  cbn zeta. rewrite Hsub. cbn [fst snd].
  rewrite onSubmitError_run, Hre, Hreq, Hcfg, Hloop by exact Hle. reflexivity.
Qed.

(** The live budget was raised from 1 to 5 after the build: the catch block
    goes on to rebuild, and the stored budget of 1 allows no build. *)
Lemma no_budget_no_build_witness :
  let live := fun t : nat => if (t <? 4)%nat then demoConfig true 1 else demoConfig true 5 in
  let W := demoWorld live BUY (fun _ => true) 0 in
  let st := (Service.fetchSwap W "alice" (demoRequest None) emptyState).2 in
  exists entry,
    registry st !! "3"%string = Some entry /\
    Service.signAndSendTransaction W "alice" "signature" "3" st
    = (Throw (Error "Failed to build swap response"),
       set_registry (delete "3"%string) (afterSubmit st entry (registry st))) /\
    registry (Service.signAndSendTransaction W "alice" "signature" "3" st).2 = ∅.
Proof.
  intros live W st.
  destruct (registry st !! "3"%string) as [entry|] eqn:Hfound;
    [|vm_compute in Hfound; discriminate].
  pose proof Hfound as Hval. vm_compute in Hval. injection Hval as Hval.
  exists entry. split; [reflexivity|]. split.
  - apply (proj2 (no_budget_no_build W) "alice" "signature" "3"%string st
             {| userId := "alice"; walletPublicKey := "wallet" |} entry
             (Error "on-chain failure") (registry st) (demoActiveRequest None)
             (demoConfig true 1) eq_refl Hfound eq_refl).
    + rewrite <- Hval. vm_compute; reflexivity.
    + rewrite <- Hval. reflexivity.
    + rewrite <- Hval. reflexivity.
    + rewrite <- Hval. vm_compute. discriminate.
  - vm_compute; reflexivity.
Defined.

(** The loop of an automatic-slippage request that throws has used every
    attempt. *)
Lemma rebuildLoop_exhausts W request cfg (n : nat) :
  slippageBps request = None ->
  forall lo st e st',
    Z.to_nat (MAX_BUILD_ATTEMPTS cfg + 1 - lo) = n ->
    Service.rebuildLoop W request cfg (Service.attemptRange lo (MAX_BUILD_ATTEMPTS cfg)) st
    = (Throw e, st') ->
    builds (trace st') = builds (trace st) ++ Service.attemptRange lo (MAX_BUILD_ATTEMPTS cfg).
Proof.
  intros Hs. induction n as [|k IH]; intros lo st e st' Hn H.
  - rewrite attemptRange_nil in * by lia. cbn in H. injection H as _ <-.
    rewrite app_nil_r. reflexivity.
  - rewrite attemptRange_cons in * by lia.
    cbn [Service.rebuildLoop] in H. unfold try_catch in H.
    destruct (SwapService.buildSwapResponse W request cfg lo st) as [[r|e1] st1] eqn:Hb;
      [discriminate|].
    apply build_builds in Hb.
    rewrite Hs in H. rewrite bool_decide_eq_false_2 in H by (intros Hx; apply Hx; reflexivity).
    rewrite orb_false_r in H.
    destruct (lo >=? MAX_BUILD_ATTEMPTS cfg) eqn:Hge.
    + injection H as _ <-. rewrite Hb.
      rewrite (attemptRange_nil (lo + 1)) by lia. reflexivity.
    + apply IH in H; [|lia]. rewrite H, Hb, <- app_assoc. reflexivity.
Qed.

(** X14: an automatic-slippage request (no slippageBps) never gives up
    early: when buildSwapResponseWithRebuild throws, every attempt from
    priorAttempts + 1 up to MAX_BUILD_ATTEMPTS has been made. *)
Theorem auto_slippage_uses_whole_budget W request cfg prior st e st' :
  slippageBps request = None ->
  Service.buildSwapResponseWithRebuild W request cfg prior st = (Throw e, st') ->
  builds (trace st')
  = builds (trace st) ++ Service.attemptRange (prior + 1) (MAX_BUILD_ATTEMPTS cfg) /\
  length (Service.attemptRange (prior + 1) (MAX_BUILD_ATTEMPTS cfg))
  = Z.to_nat (MAX_BUILD_ATTEMPTS cfg - prior).
Proof.
  intros Hs H. split.
  - eapply rebuildLoop_exhausts; [exact Hs|reflexivity|exact H].
  - rewrite attemptRange_length. f_equal. lia.
Qed.

(** The quote provider never answers: three builds, then the failure. *)
Lemma auto_slippage_uses_whole_budget_witness :
  let W := demoWorld (fun _ => demoConfig true 3) BUY (fun _ => false) 0 in
  let run := Service.buildSwapResponseWithRebuild W (demoActiveRequest None)
               (demoConfig true 3) 0 emptyState in
  run.1 = Throw (ErrorBuild (Error "no route")) /\
  builds (trace run.2) = [1; 2; 3].
Proof.
  intros W run. split; [vm_compute; reflexivity|].
  destruct run as [res st'] eqn:Hrun.
  assert (Hres : res = Throw (ErrorBuild (Error "no route")))
    by (unfold run in Hrun; vm_compute in Hrun; congruence).
  subst res.
  apply (auto_slippage_uses_whole_budget W (demoActiveRequest None) (demoConfig true 3) 0
           emptyState _ st' eq_refl Hrun).
Defined.

(** ** Submission and presigning: the error paths *)

(** X15: signAndSendTransaction fails before it reads the configuration or
    calls the submitter when the caller is not authenticated (the
    authentication error) or the key is not registered ("Transaction not
    found in registry"); the state is unchanged. *)
Theorem signAndSendTransaction_guards W jwt sig key st :
  (forall e, getUserContext W jwt = Throw e ->
     Service.signAndSendTransaction W jwt sig key st = (Throw e, st)) /\
  (forall ctx, getUserContext W jwt = Ok ctx ->
     registry st !! key = None ->
     Service.signAndSendTransaction W jwt sig key st
     = (Throw (Error "Transaction not found in registry"), st)).
Proof.
  unfold Service.signAndSendTransaction. unfold_ops. split.
  - intros e ->. reflexivity.
  - intros ctx -> Hnone. cbn. rewrite Hnone. reflexivity.
Qed.

Lemma signAndSendTransaction_guards_witness :
  Service.signAndSendTransaction
    (demoWorld (fun _ => demoConfig true 3) BUY (fun _ => true) 0)
    "alice" "signature" "unknown" emptyState
  = (Throw (Error "Transaction not found in registry"), emptyState).
Proof.
  apply (proj2 (signAndSendTransaction_guards
                  (demoWorld (fun _ => demoConfig true 3) BUY (fun _ => true) 0)
                  "alice" "signature" "unknown" emptyState)
           {| userId := "alice"; walletPublicKey := "wallet" |}); reflexivity.
Defined.

(** X16: fetchPresignedSwap deletes before it signs: when the swap is built
    and the fee payer's signing throws, the error is thrown and the built
    transaction is no longer registered; when signing succeeds, the
    signature returned is that of the message that was registered. *)
Theorem fetchPresignedSwap_signing W jwt q st r st1 entry :
  Service.fetchSwap W jwt q st = (Ok r, st1) ->
  registry st1 !! transactionMessageBase64 r = Some entry ->
  let st2 := set_registry (delete (transactionMessageBase64 r)) st1 in
  registry st2 !! transactionMessageBase64 r = None /\
  match signTransaction W (message entry) with
  | Ok signature =>
      Service.fetchPresignedSwap W jwt q st
      = (Ok {| s_response := r; feePayerSignature := signature |}, st2)
  | Throw e => Service.fetchPresignedSwap W jwt q st = (Throw e, st2)
  end.
Proof.
  intros Hfetch Hfound st2. split; [apply lookup_delete_eq|].
  unfold Service.fetchPresignedSwap. rewrite bind_run, Hfetch.
  unfold_ops. cbn. rewrite Hfound. cbn.
  destruct (signTransaction W (message entry)); reflexivity.
Qed.

Lemma fetchPresignedSwap_signing_witness :
  let W := withFailingSigner (demoWorld (fun _ => demoConfig true 3) BUY (fun _ => true) 0) in
  let run := Service.fetchPresignedSwap W "alice" (demoRequest None) emptyState in
  run.1 = Throw (Error "signing failed") /\ registry run.2 = ∅.
Proof.
  intros W run.
  destruct (Service.fetchSwap W "alice" (demoRequest None) emptyState) as [[r|e] st1] eqn:Hfetch;
    [|vm_compute in Hfetch; discriminate].
  destruct (registry st1 !! transactionMessageBase64 r) as [entry|] eqn:Hfound.
  - pose proof (proj2 (fetchPresignedSwap_signing W "alice" (demoRequest None) emptyState
                         r st1 entry Hfetch Hfound)) as H.
    cbn [signTransaction withFailingSigner] in H.
    unfold run. rewrite H. clear H. cbn [fst snd].
    split; [reflexivity|].
    vm_compute in Hfetch. injection Hfetch as <- <-. vm_compute. reflexivity.
  - vm_compute in Hfetch. injection Hfetch as <- <-. vm_compute in Hfound. discriminate.
Defined.

(** ** Slippage settings and failures around the quote *)

(** X17: the quote request carries either a slippageBps or the automatic
    slippage flag, never both and never neither; a non-zero slippageBps of
    the request is passed on as it is, and without one the flag is the
    configuration's AUTO_SLIPPAGE with MAX_DEFAULT_SLIPPAGE_BPS as the
    fallback value. *)
Theorem slippage_settings_exclusive request cfg swapAmount :
  let q := SwapService.swapInstructionRequest request cfg swapAmount in
  (q_autoSlippage q = true <-> q_slippageBps q = None) /\
  (forall s, slippageBps request = Some s -> s <> 0 ->
     q_slippageBps q = Some s /\ q_autoSlippage q = false) /\
  (slippageBps request = None \/ slippageBps request = Some 0 ->
     q_autoSlippage q = AUTO_SLIPPAGE cfg /\
     q_slippageBps q
     = if AUTO_SLIPPAGE cfg then None else Some (MAX_DEFAULT_SLIPPAGE_BPS cfg)).
Proof.
  cbn. unfold SwapService.slippageSettings_autoSlippage,
    SwapService.slippageSettings_slippageBps.
  split; [|split].
  - destruct (slippageBps request) as [s|] eqn:Hs; cbn.
    + destruct (s =? 0); cbn; destruct (AUTO_SLIPPAGE cfg); split; congruence.
    + destruct (AUTO_SLIPPAGE cfg); split; congruence.
  - intros s -> Hnz. rewrite (truthy_nonzero s Hnz). auto.
  - intros [-> | ->]; cbn; auto.
Qed.

Lemma slippage_settings_exclusive_witness :
  let q := SwapService.swapInstructionRequest (demoActiveRequest (Some 100))
             (demoConfig true 3) 990000 in
  q_slippageBps q = Some 100 /\ q_autoSlippage q = false.
Proof.
  apply (proj1 (proj2 (slippage_settings_exclusive
                         (demoActiveRequest (Some 100)) (demoConfig true 3) 990000)) 100).
  - reflexivity.
  - discriminate.
Defined.

#[local] Arguments SwapService.swapInstructionRequest : simpl never.





(** ** The bearer token and the fee recipient *)

Lemma substring_all (s : string) : String.substring 0 (String.length s) s = s.
Proof. induction s as [|c s IH]; cbn; [reflexivity|]. rewrite IH. reflexivity. Qed.

Lemma prefix_split (p h : string) :
  String.prefix p h = true ->
  h = String.append p
        (String.substring (String.length p) (String.length h - String.length p) h).
Proof.
  revert h. induction p as [|a p IH]; intros h H.
  - cbn. rewrite Nat.sub_0_r, substring_all. reflexivity.
  - destruct h as [|b h]; [discriminate|]. cbn in H.
    destruct (ascii_dec a b) as [->|]; [|discriminate].
    cbn. unfold String.append; fold String.append. f_equal. apply IH, H.
Qed.

Lemma prefix_append (p t : string) : String.prefix p (String.append p t) = true.
Proof.
  induction p as [|a p IH]; unfold String.append; fold String.append; cbn.
  - destruct t; reflexivity.
  - destruct (ascii_dec a a); [exact IH|contradiction].
Qed.

Lemma substring_append (p t : string) :
  String.substring (String.length p)
    (String.length (String.append p t) - String.length p) (String.append p t) = t.
Proof.
  induction p as [|a p IH]; unfold String.append; fold String.append.
  - cbn. rewrite Nat.sub_0_r. apply substring_all.
  - cbn. exact IH.
Qed.

(** X20: getBearerToken returns a token exactly for a header of the form
    "Bearer " followed by the token, and then it returns that token
    unchanged; a missing header gives no token, and the token put into the
    request context is then the empty string. *)
Theorem getBearerToken_roundtrip :
  (forall token,
     ServiceQueries.getBearerToken (Some (String.append "Bearer " token)) = Some token) /\
  (forall authorization token,
     ServiceQueries.getBearerToken authorization = Some token ->
     authorization = Some (String.append "Bearer " token)) /\
  ServiceQueries.getBearerToken None = None /\
  ServiceQueries.contextToken None = ""%string /\
  (forall token,
     ServiceQueries.contextToken (Some (String.append "Bearer " token)) = token).
Proof.
  assert (Hrt : forall token,
             ServiceQueries.getBearerToken (Some (String.append "Bearer " token)) = Some token).
  { intros token. unfold ServiceQueries.getBearerToken.
    rewrite (prefix_append "Bearer " token).
    change 7%nat with (String.length "Bearer ").
    rewrite (substring_append "Bearer " token). reflexivity. }
  split; [exact Hrt|]. split; [|split; [reflexivity|split; [reflexivity|]]].
  - intros [h|] token H; [|discriminate].
    unfold ServiceQueries.getBearerToken in H.
    destruct (negb (String.eqb h "")); [|discriminate]. cbn [andb] in H.
    destruct (String.prefix "Bearer " h) eqn:Hp; [|discriminate].
    injection H as <-. f_equal. apply (prefix_split "Bearer " h Hp).
  - intros token. unfold ServiceQueries.contextToken. rewrite Hrt. reflexivity.
Qed.

(** A lower-case scheme is not accepted; a token is returned from a header
    of the accepted form only. *)
Lemma getBearerToken_roundtrip_witness :
  ServiceQueries.getBearerToken (Some "bearer abc"%string) = None /\
  ServiceQueries.getBearerToken (Some "Bearer abc"%string) = Some "abc"%string /\
  Some "Bearer abc"%string = Some (String.append "Bearer " "abc").
Proof.
  split; [reflexivity|]. split; [reflexivity|].
  apply (proj1 (proj2 getBearerToken_roundtrip) (Some "Bearer abc"%string) "abc"%string).
  reflexivity.
Defined.


